(** * AI detection component of Moonraker (moonraker/components/ai_detection.py)

    A shallow embedding of the [AiDetection] component: the predictor
    ([_request_prediction]), the predict handler ([_handle_predict]), the
    snapshot handler ([_handle_snapshot_request]) and the upload handler
    ([_handle_image_upload]), followed by the properties of the component's
    specification.

    Python strings are modelled as [string] (sequences of 8-bit characters,
    with ASCII case mapping), byte strings as [list byte], a [dict] as a
    [gmap] with string keys.  The collaborators of the component (clock, host
    info, HTTP client, webcam, file system) are read from a [World]; what the
    component does to them is recorded, in order, in a trace of [event]s. *)

From Stdlib Require Import ZArith Ascii String Strings.Byte.
From stdpp Require Import base option list strings pretty gmap.

Local Open Scope Z_scope.
Local Open Scope string_scope.

(** ** Strings: the [str] methods the component uses *)

Module Str.

(** [c.lower()] on one character: only A..Z have a lower-case form. *)
Definition ascii_lower (c : ascii) : ascii :=
  let n := nat_of_ascii c in
  if ((65 <=? n) && (n <=? 90))%nat then ascii_of_nat (n + 32) else c.

(** [s.lower()] *)
Fixpoint lower (s : string) : string :=
  match s with
  | EmptyString => EmptyString
  | String c s' => String (ascii_lower c) (lower s')
  end.

(** [s.startswith(prefix)] *)
Fixpoint startswith (s prefix : string) : bool :=
  match prefix, s with
  | EmptyString, _ => true
  | String _ _, EmptyString => false
  | String p prefix', String c s' =>
      if decide (p = c) then startswith s' prefix' else false
  end.

(** [s.endswith(suffix)]: some tail of [s] is [suffix]. *)
Fixpoint endswith (s suffix : string) : bool :=
  if decide (s = suffix) then true
  else match s with
       | EmptyString => false
       | String _ s' => endswith s' suffix
       end.

(** [s.endswith((x, y, ...))] with a tuple of suffixes. *)
Definition endswith_any (s : string) (suffixes : list string) : bool :=
  existsb (endswith s) suffixes.

(** [s.rfind(c)]: the highest index of the character [c], or -1. *)
Fixpoint rfind_from (c : ascii) (s : string) (i found : Z) : Z :=
  match s with
  | EmptyString => found
  | String a s' => rfind_from c s' (i + 1) (if decide (a = c) then i else found)
  end.

Definition rfind (s : string) (c : ascii) : Z := rfind_from c s 0 (-1).

(** [s[i:]] and [s[:i]] for an index [0 <= i]. *)
Fixpoint drop (n : nat) (s : string) : string :=
  match n, s with
  | O, _ => s
  | S _, EmptyString => EmptyString
  | S n', String _ s' => drop n' s'
  end.

Fixpoint take (n : nat) (s : string) : string :=
  match n, s with
  | O, _ => EmptyString
  | S _, EmptyString => EmptyString
  | S n', String c s' => String c (take n' s')
  end.

Definition slice_from (s : string) (i : Z) : string := drop (Z.to_nat i) s.
Definition slice_to (s : string) (i : Z) : string := take (Z.to_nat i) s.

(** [s[i:i+1]] *)
Definition slice1 (s : string) (i : Z) : string := take 1 (drop (Z.to_nat i) s).

(** [sub in s] for strings, as a proposition. *)
Definition contains (s sub : string) : Prop :=
  ∃ pre post, s = pre +:+ sub +:+ post.

(** [bool(s)]: a string is truthy when it is not empty. *)
Definition truthy (s : string) : bool :=
  match s with EmptyString => false | String _ _ => true end.

End Str.

(** ** Paths: the functions of [os.path] (posixpath) the component uses *)

Module os_path.

Definition sep : ascii := "/"%char.
Definition extsep : ascii := "."%char.

(** [posixpath.basename]: [i = p.rfind('/') + 1; return p[i:]] *)
Definition basename (p : string) : string :=
  let i := Str.rfind p sep + 1 in
  Str.slice_from p i.

(** The [while filenameIndex < dotIndex] loop of [genericpath._splitext]:
    [true] when a character other than the dot is found before [dotIndex]
    (the loop returns the split), [false] when the loop runs out (only
    leading dots).  [n] counts the iterations left, [dotIndex - filenameIndex]. *)
Fixpoint splitext_scan (p : string) (filenameIndex : Z) (n : nat) : bool :=
  match n with
  | O => false
  | S n' =>
      if decide (Str.slice1 p filenameIndex = String extsep EmptyString)
      then splitext_scan p (filenameIndex + 1) n'
      else true
  end.

(** [posixpath.splitext], that is [genericpath._splitext(p, '/', None, '.')]. *)
Definition splitext (p : string) : string * string :=
  let sepIndex := Str.rfind p sep in
  let dotIndex := Str.rfind p extsep in
  if (dotIndex >? sepIndex)%Z
  then
    let filenameIndex := sepIndex + 1 in
    if splitext_scan p filenameIndex (Z.to_nat (dotIndex - filenameIndex))
    then (Str.slice_to p dotIndex, Str.slice_from p dotIndex)
    else (p, EmptyString)
  else (p, EmptyString).

(** [posixpath.join(a, b)] for one component [b]. *)
Definition join (a b : string) : string :=
  if Str.startswith b (String sep EmptyString) then b
  else if negb (Str.truthy a) || Str.endswith a (String sep EmptyString)
       then a +:+ b
       else a +:+ String sep EmptyString +:+ b.

End os_path.

(** ** Values *)

(** A parsed JSON value: what [web_request.get_json()] holds under a key and
    what [resp.json()] returns.  A float keeps its literal. *)
#[warnings="-register-all"]
Inductive json : Type :=
| JNull
| JBool (b : bool)
| JInt (n : Z)
| JFloat (literal : string)
| JStr (s : string)
| JArr (items : list json)
| JObj (members : list (string * json)).

(** [type(v).__name__] of the Python value a JSON value parses to. *)
Definition type_name (v : json) : string :=
  match v with
  | JNull => "NoneType"
  | JBool _ => "bool"
  | JInt _ => "int"
  | JFloat _ => "float"
  | JStr _ => "str"
  | JArr _ => "list"
  | JObj _ => "dict"
  end.

(** ** Exceptions *)

(** The exception classes that reach the component's [except] clauses. *)
Inductive pyclass : Type :=
| TimeoutError          (* asyncio.TimeoutError *)
| ServerTimeoutError    (* aiohttp: both a ClientError and an asyncio.TimeoutError *)
| ClientConnectorError  (* aiohttp: the connection could not be established *)
| ContentTypeError      (* aiohttp: raised by resp.json() *)
| ClientError           (* any other aiohttp.ClientError *)
| OSError
| TypeError
| KeyError
| AttributeError
| ValueError
| OtherException (name : string)
| CancelledError.       (* asyncio.CancelledError: a BaseException, not an Exception *)

(** Modelled from the spec: the server's error class ([self.server.error]) is
    declared outside this component; the specification gives it a reason and
    an HTTP status ([PredictionError{reason, httpStatus}]), and [str(e)] of
    such an error is its reason. *)
Inductive exn : Type :=
| ServerError (message : string) (status_code : Z)
| PyError (cls : pyclass) (text : string).

(** [str(e)] *)
Definition str (e : exn) : string :=
  match e with
  | ServerError message _ => message
  | PyError _ text => text
  end.

(** [isinstance(e, asyncio.TimeoutError)] *)
Definition is_TimeoutError (e : exn) : bool :=
  match e with
  | PyError TimeoutError _ | PyError ServerTimeoutError _ => true
  | _ => false
  end.

(** [isinstance(e, aiohttp.ClientError)] *)
Definition is_ClientError (e : exn) : bool :=
  match e with
  | PyError ServerTimeoutError _ | PyError ClientConnectorError _
  | PyError ContentTypeError _ | PyError ClientError _ => true
  | _ => false
  end.

(** [isinstance(e, Exception)] *)
Definition is_Exception (e : exn) : bool :=
  match e with
  | PyError CancelledError _ => false
  | _ => true
  end.

(** The result of running a piece of Python: a value or a raised exception. *)
Inductive outcome (A : Type) : Type :=
| Return (a : A)
| Raise (e : exn).
Arguments Return {A} a.
Arguments Raise {A} e.

(** ** Effects *)

Inductive level : Type :=
| INFO        (* logging.info *)
| ERROR       (* logging.error *)
| EXCEPTION.  (* logging.exception: ERROR level, with the traceback *)

(** A piece of a log message: literal text, or a value formatted by an
    f-string replacement field. *)
Inductive fragment : Type :=
| Lit (s : string)
| Fmt (v : json).

(** What the component does to the outside, in order. *)
Inductive event : Type :=
| Log (lvl : level) (message : list fragment)
| FileOpen (path : string)                       (* open(path, 'wb') succeeded *)
| FileWrite (path : string) (data : list byte)   (* f.write(data) succeeded *)
| HttpPost (url : string) (body : gmap string json) (timeout : Z).

(** ** Collaborators *)

(** The response object of [session.post]. *)
Record response : Type := {
  status : Z;                   (* resp.status *)
  resp_text : outcome string;   (* await resp.text() *)
  resp_json : outcome json      (* await resp.json() *)
}.

(** The webcam component. *)
Record WebcamManager : Type := {
  take_snapshot : outcome (option (list byte))   (* await webcam.take_snapshot() *)
}.

(** Everything the component reads from outside itself during one call. *)
Record World : Type := {
  (* int(time.time()) *)
  unix_seconds : Z;
  (* self.server.get_host_info()['address'] *)
  host_address : string;
  (* self.server.lookup_component("webcam") *)
  lookup_webcam : outcome WebcamManager;
  (* async with session.post(url, json=..., timeout=...) as resp *)
  session_post : string → gmap string json → Z → outcome response;
  (* open(path, 'wb'): the exception it raises, if any *)
  open_wb : string → option exn;
  (* f.write(data): the exception it raises, if any *)
  file_write : string → list byte → option exn;
  (* the message of the error [get_str] raises for an absent argument *)
  no_data_message : string → string
}.

(** The [[ai]] section of the configuration. *)
Record AIConfig : Type := {
  base_url : string;
  upload_timeout : Z;
  snapshot_path : string
}.

(** The component's own state: [self.ai_config : Optional[AIConfig]]. *)
Record AiDetection : Type := {
  ai_config : option AIConfig
}.

(** An uploaded file part: [file.filename] ([None] or a string) and [file.body]. *)
Record UploadedFile : Type := {
  filename : option string;
  body : list byte
}.

(** A request.  An entry of [files] bound to [None] stands for a value that
    is falsy in Python ([not file] holds); an entry bound to [Some f] is a
    truthy file object. *)
Record WebRequest : Type := {
  files : gmap string (option UploadedFile);   (* web_request.files *)
  args : gmap string string;                   (* the form fields *)
  get_json : gmap string json                  (* web_request.get_json() *)
}.

(** ** The monad of handlers: exceptions and a trace of events *)

Definition M (A : Type) : Type := list event → outcome A * list event.

Definition ret {A} (a : A) : M A := fun tr => (Return a, tr).

Definition raise {A} (e : exn) : M A := fun tr => (Raise e, tr).

Definition bind {A B} (m : M A) (k : A → M B) : M B :=
  fun tr =>
    match m tr with
    | (Return a, tr') => k a tr'
    | (Raise e, tr') => (Raise e, tr')
    end.

(** [try: body except ...: handler]: [handlers e] is the first matching
    clause's body, [None] when no clause matches. *)
Definition try_except {A} (body : M A) (handlers : exn → option (M A)) : M A :=
  fun tr =>
    match body tr with
    | (Return a, tr') => (Return a, tr')
    | (Raise e, tr') =>
        match handlers e with
        | Some handler => handler tr'
        | None => (Raise e, tr')
        end
    end.

Definition emit (ev : event) : M unit := fun tr => (Return tt, (tr ++ [ev])%list).

Definition lift {A} (o : outcome A) : M A := fun tr => (o, tr).

Declare Scope py_scope.
Delimit Scope py_scope with py.
Notation "'let!' x ':=' m 'in' k" := (bind m (fun x => k))
  (at level 10, x name, m at level 100, k at level 200, only parsing) : py_scope.
Notation "m ;; k" := (bind m (fun _ => k))
  (at level 100, k at level 200, only parsing, right associativity) : py_scope.

(** ** The component *)

Section AiDetection.

Context (w : World) (self : AiDetection).

Local Open Scope py_scope.

(** [logging.info], [logging.error], [logging.exception] *)
Definition log (lvl : level) (message : list fragment) : M unit :=
  emit (Log lvl message).

(** [self.ai_config.<attr>]: an [AttributeError] when [ai_config] is [None]. *)
Definition ai_config_attr {A} (attr : string) (get : AIConfig → A) : M A :=
  match ai_config self with
  | Some cfg => ret (get cfg)
  | None =>
      raise (PyError AttributeError
               ("'NoneType' object has no attribute '" +:+ attr +:+ "'"))
  end.

(** [os.fspath(p)] on a parsed JSON value: only [str] is path-like. *)
Definition fspath (p : json) : M string :=
  match p with
  | JStr s => ret s
  | _ =>
      raise (PyError TypeError
               ("expected str, bytes or os.PathLike object, not " +:+ type_name p))
  end.

(** [d[key]] on a dict. *)
Definition getitem (d : gmap string json) (key : string) : M json :=
  match d !! key with
  | Some v => ret v
  | None => raise (PyError KeyError ("'" +:+ key +:+ "'"))
  end.

(** [with open(path, 'wb') as f: f.write(data)] *)
Definition write_file (path : string) (data : list byte) : M unit :=
  match open_wb w path with
  | Some e => raise e
  | None =>
      emit (FileOpen path) ;;
      match file_write w path data with
      | Some e => raise e
      | None => emit (FileWrite path data)
      end
  end.

(** [async with session.post(url, json=data, timeout=t) as resp] *)
Definition post (url : string) (data : gmap string json) (timeout : Z) : M response :=
  emit (HttpPost url data timeout) ;;
  lift (session_post w url data timeout).

(** The [image_url] built by [_request_prediction]. *)
Definition image_url_of (image_name : string) : string :=
  "http://" +:+ host_address w +:+ "/server/files/ai_snapshots/" +:+ image_name.

(** The [callback_url] built by [_request_prediction]. *)
Definition callback_url_of : string :=
  "http://" +:+ host_address w +:+ "/api/v1/ai/callback".

(** The [predict_data] dict built by [_request_prediction]. *)
Definition predict_data_of (image_name : string) (task_id : json) : gmap string json :=
  {[ "image_url" := JStr (image_url_of image_name);
     "task_id" := task_id;
     "callback_url" := JStr callback_url_of ]}.

(** The [except] clauses of [_request_prediction]. *)
Definition _request_prediction_except (task_id : json) (e : exn) : option (M json) :=
  if is_TimeoutError e then
    Some (log ERROR [Lit "AI Detection: Prediction request timeout for task ";
                     Fmt task_id] ;;
          raise (ServerError "AI service request timeout" 504))
  else if is_ClientError e then
    Some (log ERROR [Lit "AI Detection: Failed to connect to AI service for task ";
                     Fmt task_id; Lit ": "; Lit (str e)] ;;
          raise (ServerError ("Failed to connect to AI service: " +:+ str e) 503))
  else None.

(** [AiDetection._request_prediction] *)
Definition _request_prediction (image_path task_id : json) : M json :=
  try_except
    (let! image_name := (let! p := fspath image_path in ret (os_path.basename p)) in
     let predict_data := predict_data_of image_name task_id in
     let! url := ai_config_attr "base_url" (fun cfg => base_url cfg +:+ "/predict") in
     let! timeout := ai_config_attr "upload_timeout" upload_timeout in
     let! resp := post url predict_data timeout in
     if decide (status resp ≠ 200) then
       let! error_text := lift (resp_text resp) in
       raise (ServerError ("AI service returned error: " +:+ error_text) (status resp))
     else
       let! result := lift (resp_json resp) in
       log INFO [Lit "AI Detection: Prediction requested for task "; Fmt task_id;
                 Lit ", response: "; Fmt result] ;;
       ret result)
    (_request_prediction_except task_id).

Definition required_fields : list string := ["image_url"; "task_id"; "callback_url"].

(** [for field in fields: if field not in request_json: raise ...] *)
Fixpoint check_required (fields : list string) (request_json : gmap string json) : M unit :=
  match fields with
  | [] => ret tt
  | field :: rest =>
      match request_json !! field with
      | None => raise (ServerError ("Missing required field: " +:+ field) 400)
      | Some _ => check_required rest request_json
      end
  end.

(** The [{'code': 200, 'message': 'success', 'data': ...}] dict. *)
Definition success (data : json) : gmap string json :=
  {[ "code" := JInt 200; "message" := JStr "success"; "data" := data ]}.

(** [AiDetection._handle_predict] *)
Definition _handle_predict (web_request : WebRequest) : M (gmap string json) :=
  let request_json := get_json web_request in
  check_required required_fields request_json ;;
  try_except
    (let! image_url := getitem request_json "image_url" in
     let! task_id := getitem request_json "task_id" in
     let! result := _request_prediction image_url task_id in
     ret (success result))
    (fun e =>
       if is_Exception e then
         Some (log EXCEPTION [Lit "Error processing prediction request"] ;;
               raise (ServerError (str e) 500))
       else None).

(** The [try] block of [_handle_snapshot_request]. *)
Definition _handle_snapshot_request_try : M unit :=
  let! webcam := lift (lookup_webcam w) in
  let task_id := "snapshot_" +:+ pretty (unix_seconds w) in
  let! snapshot := lift (take_snapshot webcam) in
  match snapshot with
  | None => log ERROR [Lit "Failed to take snapshot"] ;; ret tt
  | Some data =>
      let save_filename := task_id +:+ ".jpg" in
      let! save_path :=
        ai_config_attr "snapshot_path"
          (fun cfg => os_path.join (snapshot_path cfg) save_filename) in
      write_file save_path data ;;
      log INFO [Lit "AI Detection: Snapshot saved for task "; Lit task_id;
                Lit " at "; Lit save_path] ;;
      _request_prediction (JStr save_path) (JStr task_id) ;;
      ret tt
  end.

(** The [except Exception] clause of [_handle_snapshot_request]. *)
Definition _handle_snapshot_request_except (e : exn) : option (M unit) :=
  if is_Exception e then
    Some (log EXCEPTION [Lit "Error processing snapshot request"] ;;
          raise (ServerError ("Failed to process snapshot: " +:+ str e) 500))
  else None.

(** [AiDetection._handle_snapshot_request] *)
Definition _handle_snapshot_request : M unit :=
  try_except _handle_snapshot_request_try _handle_snapshot_request_except.

(** Modelled from the spec: [WebRequest.get_str] is declared outside this
    component; the specification requires the field to be present and
    reports its absence as a 400-class error. *)
Definition get_str (web_request : WebRequest) (key : string) : M string :=
  match args web_request !! key with
  | Some v => ret v
  | None => raise (ServerError (no_data_message w key) 400)
  end.

(** [file and file.filename]: the name and the body of the file when
    neither [not file] nor [not file.filename] holds. *)
Definition named_file (file : option UploadedFile) : option (string * list byte) :=
  match file with
  | None => None
  | Some f =>
      match filename f with
      | None => None
      | Some name => if Str.truthy name then Some (name, body f) else None
      end
  end.

Definition allowed_suffixes : list string := [".jpg"; ".jpeg"; ".png"].

(** The [except Exception] clause around the write of [_handle_image_upload]. *)
Definition _handle_image_upload_except (e : exn) : option (M unit) :=
  if is_Exception e then
    Some (log EXCEPTION [Lit "Failed to save uploaded image"] ;;
          raise (ServerError ("Failed to save image: " +:+ str e) 500))
  else None.

(** [AiDetection._handle_image_upload] *)
Definition _handle_image_upload (web_request : WebRequest) : M (gmap string json) :=
  match files web_request !! "file" with
  | None => raise (ServerError "No file uploaded" 400)
  | Some file =>
      match named_file file with
      | None => raise (ServerError "Empty file" 400)
      | Some (file_filename, file_body) =>
          let! task_id := get_str web_request "task_id" in
          if negb (Str.truthy task_id) then
            raise (ServerError "task_id is required" 400)
          else
            let filename := Str.lower file_filename in
            if negb (Str.endswith_any filename allowed_suffixes) then
              raise (ServerError "Invalid file type. Only jpg/jpeg/png allowed" 400)
            else
              let timestamp := unix_seconds w in
              let save_filename :=
                task_id +:+ "_" +:+ pretty timestamp +:+ (os_path.splitext filename).2 in
              let! save_path :=
                ai_config_attr "snapshot_path"
                  (fun cfg => os_path.join (snapshot_path cfg) save_filename) in
              try_except
                (write_file save_path file_body ;;
                 log INFO [Lit "AI Detection: Image saved for task "; Lit task_id;
                           Lit " at "; Lit save_path])
                _handle_image_upload_except ;;
              ret (success JNull)
      end
  end.

End AiDetection.

(** ** The specification's vocabulary *)

Module Spec.

(** The text of a name from its last dot on, when it has a dot. *)
Fixpoint last_dot_suffix (s : string) : option string :=
  match s with
  | EmptyString => None
  | String c s' =>
      match last_dot_suffix s' with
      | Some e => Some e
      | None => if decide (c = "."%char) then Some s else None
      end
  end.

(** "The filename's extension": the text from the last dot on, empty when
    the name has no dot. *)
Definition extension (name : string) : string :=
  default EmptyString (last_dot_suffix name).

(** "The filename's extension (case-insensitive) must be one of .jpg,
    .jpeg, .png." *)
Definition extension_allowed (name : string) : bool :=
  bool_decide (Str.lower (extension name) ∈ allowed_suffixes).

(** The four validation checks of the upload handler, in the spec's order. *)
Inductive upload_check : Type :=
| FilePartPresent     (* 1. a file part must be present *)
| FileNonEmptyNamed   (* 2. the file must be non-empty and carry a filename *)
| TaskIdGiven         (* 3. a task_id field must be present and non-empty *)
| ExtensionAllowed.   (* 4. the extension must be one of .jpg, .jpeg, .png *)

Definition upload_checks : list upload_check :=
  [FilePartPresent; FileNonEmptyNamed; TaskIdGiven; ExtensionAllowed].

(** The name carried by the file part, when the part is there, is not
    empty (falsy) and has a non-empty name. *)
Definition file_name (req : WebRequest) : option string :=
  match files req !! "file" with
  | Some (Some f) =>
      match filename f with
      | Some name => if Str.truthy name then Some name else None
      | None => None
      end
  | _ => None
  end.

(** Whether a request passes one check, each check read on its own. *)
Definition passes (req : WebRequest) (c : upload_check) : bool :=
  match c with
  | FilePartPresent => bool_decide (is_Some (files req !! "file"))
  | FileNonEmptyNamed => bool_decide (is_Some (file_name req))
  | TaskIdGiven =>
      match args req !! "task_id" with
      | Some task_id => Str.truthy task_id
      | None => false
      end
  | ExtensionAllowed =>
      match file_name req with
      | Some name => extension_allowed name
      | None => false
      end
  end.

(** "First failing check wins." *)
Definition first_failing (req : WebRequest) : option upload_check :=
  List.find (fun c => negb (passes req c)) upload_checks.

(** The reason reported for a failed check. *)
Definition failure_message (w : World) (req : WebRequest) (c : upload_check) : string :=
  match c with
  | FilePartPresent => "No file uploaded"
  | FileNonEmptyNamed => "Empty file"
  | TaskIdGiven =>
      match args req !! "task_id" with
      | None => no_data_message w "task_id"
      | Some _ => "task_id is required"
      end
  | ExtensionAllowed => "Invalid file type. Only jpg/jpeg/png allowed"
  end.

(** The fields of a predict body that are required and absent, and the
    first of them in the order the handler checks. *)
Definition is_first_missing (request_json : gmap string json) (field : string) : Prop :=
  ∃ before after,
    required_fields = (before ++ field :: after)%list ∧
    Forall (fun k => is_Some (request_json !! k)) before ∧
    request_json !! field = None.

(** The JSON bodies of the outbound POSTs of a trace. *)
Definition posted (tr : list event) : list (gmap string json) :=
  omap (fun ev => match ev with HttpPost _ body _ => Some body | _ => None end) tr.

(** A POST body whose callback URL is the one derived from the host info. *)
Definition derived_callback (w : World) (body : gmap string json) : Prop :=
  body !! "callback_url" = Some (JStr (callback_url_of w)).

(** The paths of the files a trace opens for writing or writes to. *)
Definition written (tr : list event) : list string :=
  omap (fun ev =>
          match ev with
          | FileOpen path | FileWrite path _ => Some path
          | _ => None
          end) tr.

(** The outbound POST of the predictor for an image path and a task id, and
    what the remote side makes of it. *)
Definition predict_post (w : World) (cfg : AIConfig) (image_path : string)
    (task_id : json) : event :=
  HttpPost (base_url cfg +:+ "/predict")
    (predict_data_of w (os_path.basename image_path) task_id) (upload_timeout cfg).

Definition exchange (w : World) (cfg : AIConfig) (image_path : string)
    (task_id : json) : outcome response :=
  session_post w (base_url cfg +:+ "/predict")
    (predict_data_of w (os_path.basename image_path) task_id) (upload_timeout cfg).

(** "<taskId>_<unixSeconds><originalExt>" with the extension of the
    uploaded filename as it was uploaded. *)
Definition upload_name_as_uploaded (task_id : string) (seconds : Z) (uploaded : string) : string :=
  task_id +:+ "_" +:+ pretty seconds +:+ (os_path.splitext uploaded).2.

(** "<taskId>_<unixSeconds><ext>" with the extension of the lower-cased
    filename. *)
Definition upload_name (task_id : string) (seconds : Z) (uploaded : string) : string :=
  task_id +:+ "_" +:+ pretty seconds +:+ (os_path.splitext (Str.lower uploaded)).2.

(** The task id and the file of a snapshot taken now. *)
Definition snapshot_task_id (w : World) : string :=
  "snapshot_" +:+ pretty (unix_seconds w).

Definition snapshot_file (w : World) (cfg : AIConfig) : string :=
  os_path.join (snapshot_path cfg) (snapshot_task_id w +:+ ".jpg").

(** The events of a snapshot saved without failure. *)
Definition snapshot_saved (w : World) (cfg : AIConfig) (data : list byte) : list event :=
  [FileOpen (snapshot_file w cfg);
   FileWrite (snapshot_file w cfg) data;
   Log INFO [Lit "AI Detection: Snapshot saved for task "; Lit (snapshot_task_id w);
             Lit " at "; Lit (snapshot_file w cfg)]].

(** The error the snapshot handler raises for a failure [e], and the log
    line that goes with it. *)
Definition snapshot_failure (e : exn) : exn :=
  ServerError ("Failed to process snapshot: " +:+ str e) 500.

Definition snapshot_failure_logged : event :=
  Log EXCEPTION [Lit "Error processing snapshot request"].

(** Where the upload handler saves an upload. *)
Definition upload_path (cfg : AIConfig) (task_id : string) (seconds : Z)
    (uploaded : string) : string :=
  os_path.join (snapshot_path cfg) (upload_name task_id seconds uploaded).

End Spec.

(** ** Concrete requests and worlds *)

Module Scenario.

Definition cfg : AIConfig :=
  {| base_url := "http://ai.local:8000";
     upload_timeout := 30;
     snapshot_path := "/data/ai_snapshots" |}.

Definition component : AiDetection := {| ai_config := Some cfg |}.

Definition jpeg : list byte := [xff; xd8; xff; xe0].

Definition label_ok : json := JObj [("label", JStr "ok")].

(** A world whose remote service answers every POST with [post], whose
    webcam answers [snapshot] and whose disk answers [disk] to [open]. *)
Definition world (post : outcome response) (snapshot : option (list byte))
    (disk : option exn) : World :=
  {| unix_seconds := 1700000000;
     host_address := "192.168.1.10";
     lookup_webcam := Return {| take_snapshot := Return snapshot |};
     session_post := fun _ _ _ => post;
     open_wb := fun _ => disk;
     file_write := fun _ _ => None;
     no_data_message := fun key => "No data for argument: " +:+ key |}.

Definition respond (code : Z) (text : string) (parsed : json) : outcome response :=
  Return {| status := code; resp_text := Return text; resp_json := Return parsed |}.

Definition ok_world : World := world (respond 200 "{}" label_ok) (Some jpeg) None.

(** The remote service answers 201 Created, with a JSON body. *)
Definition created_world : World := world (respond 201 "created" label_ok) (Some jpeg) None.

(** The remote service answers 422 with the body "bad image". *)
Definition rejected_world : World := world (respond 422 "bad image" JNull) (Some jpeg) None.

(** The POST times out. *)
Definition timeout_world : World :=
  world (Raise (PyError TimeoutError EmptyString)) (Some jpeg) None.

(** The connection is refused. *)
Definition refused_world : World :=
  world (Raise (PyError ClientConnectorError "Cannot connect to host ai.local:8000"))
    (Some jpeg) None.

(** The webcam has no image. *)
Definition blind_world : World := world (respond 200 "{}" label_ok) None None.

(** The disk is full. *)
Definition full_disk_world : World :=
  world (respond 200 "{}" label_ok) (Some jpeg)
    (Some (PyError OSError "[Errno 28] No space left on device")).

Definition predict_body (callback : json) : gmap string json :=
  {[ "image_url" := JStr "http://printer/files/a.jpg";
     "task_id" := JStr "t1";
     "callback_url" := callback ]}.

(** The predict body whose three required keys are bound to empty strings. *)
Definition empty_body : gmap string json :=
  {[ "image_url" := JStr EmptyString;
     "task_id" := JStr EmptyString;
     "callback_url" := JStr EmptyString ]}.

Definition predict_request (request_json : gmap string json) : WebRequest :=
  {| files := ∅; args := ∅; get_json := request_json |}.

(** The predict request whose body is {"task_id": "t1"}. *)
Definition only_task_id : WebRequest := predict_request {[ "task_id" := JStr "t1" ]}.

Definition upload_request (name : string) (task_id : string) : WebRequest :=
  {| files := {[ "file" := Some {| filename := Some name; body := jpeg |} ]};
     args := {[ "task_id" := task_id ]};
     get_json := ∅ |}.

End Scenario.

(** ** The rest of the component *)

(** [c in s] for a character. *)
Fixpoint occurs (c : ascii) (s : string) : bool :=
  match s with
  | EmptyString => false
  | String a s' => if decide (a = c) then true else occurs c s'
  end.

Section AiDetectionEvents.

Context (w : World) (self : AiDetection).

Local Open Scope py_scope.

(** [AiDetection._handle_gcode_response] *)
Definition _handle_gcode_response (response : string) : M unit :=
  if Str.startswith response "action:ai_snapshot" then
    _handle_snapshot_request w self ;; ret tt
  else ret tt.

End AiDetectionEvents.

(** *** Loading the component and the Klippy events *)

Module Lifecycle.

(** [typing.TYPE_CHECKING] when the module runs. *)
Definition TYPE_CHECKING : bool := false.

(** The names the module binds only under [if TYPE_CHECKING:]. *)
Definition typing_only_names : list string :=
  ["ConfigHelper"; "AIConfig"; "Server"; "WebRequest"; "WebcamManager"; "Klippy"].

(** The names the module binds unconditionally. *)
Definition runtime_names : list string :=
  ["annotations"; "logging"; "time"; "os"; "asyncio"; "aiohttp"; "TYPE_CHECKING";
   "Dict"; "Any"; "Optional"; "AiDetection"; "load_component"].

(** The global names of the module once it is imported. *)
Definition module_globals : list string :=
  (runtime_names ++ (if TYPE_CHECKING then typing_only_names else []))%list.

Definition NameError (name : string) : exn :=
  PyError (OtherException "NameError") ("name '" +:+ name +:+ "' is not defined").

(** Evaluating a global name inside a function body. *)
Definition load_global (name : string) : outcome unit :=
  if bool_decide (name ∈ module_globals) then Return tt else Raise (NameError name).

(** [config.error]: the configuration error class of the config helper,
    declared outside this component. *)
Definition config_error (message : string) : exn :=
  PyError (OtherException "ConfigError") message.

(** [isinstance(e, config.error)] *)
Definition is_config_error (e : exn) : bool :=
  match e with
  | PyError (OtherException name) _ => bool_decide (name = "ConfigError")
  | _ => false
  end.

(** The bound methods the component hands to the server. *)
Inductive handler : Type :=
| HandleImageUpload     (* self._handle_image_upload *)
| HandlePredict         (* self._handle_predict *)
| HandleKlippyReady     (* self._handle_klippy_ready *)
| HandleKlippyShutdown. (* self._handle_klippy_shutdown *)

(** What loading and the Klippy events do to the server, in order. *)
Inductive lifecycle_event : Type :=
| RegisterEndpoint (uri : string) (request_types : list string) (callback : handler)
    (auth_required : bool)
| RegisterEventHandler (event_name : string) (callback : handler)
| KlippyRequest (endpoint : string) (request_args : gmap string json).

(** The application component: [app.ai_config]. *)
Record Application : Type := {
  app_ai_config : option AIConfig
}.

(** The Klippy connection: [await klippy.request(web_request)]. *)
Record KlippyConnection : Type := {
  request : string → gmap string json → outcome json
}.

(** What [__init__] and the Klippy events read from the server
    ([config.get_server()]) and the config helper.  A config section is its
    table of options. *)
Record Host : Type := {
  (* self.server.lookup_component("application") *)
  lookup_application : outcome Application;
  (* config.getsection(name) *)
  getsection : string → outcome (option (gmap string string));
  (* AIConfig(ai_cfg), once the name AIConfig is resolved *)
  make_ai_config : gmap string string → outcome AIConfig;
  (* self.server.register_endpoint(...): the exception it raises, if any *)
  register_endpoint : string → list string → handler → bool → option exn;
  (* self.server.register_event_handler(...): the exception it raises, if any *)
  register_event_handler : string → handler → option exn;
  (* self.server.lookup_component("klippy_connection") *)
  lookup_klippy : outcome KlippyConnection
}.

(** Exceptions and a trace of lifecycle events. *)
Definition L (A : Type) : Type :=
  list lifecycle_event → outcome A * list lifecycle_event.

Definition ret {A} (a : A) : L A := fun tr => (Return a, tr).

Definition raise {A} (e : exn) : L A := fun tr => (Raise e, tr).

Definition bind {A B} (m : L A) (k : A → L B) : L B :=
  fun tr =>
    match m tr with
    | (Return a, tr') => k a tr'
    | (Raise e, tr') => (Raise e, tr')
    end.

Definition try_except {A} (body : L A) (handlers : exn → option (L A)) : L A :=
  fun tr =>
    match body tr with
    | (Return a, tr') => (Return a, tr')
    | (Raise e, tr') =>
        match handlers e with
        | Some h => h tr'
        | None => (Raise e, tr')
        end
    end.

Definition lift {A} (o : outcome A) : L A := fun tr => (o, tr).

Declare Scope life_scope.
Delimit Scope life_scope with life.
Notation "'let!' x ':=' m 'in' k" := (bind m (fun x => k))
  (at level 10, x name, m at level 100, k at level 200, only parsing) : life_scope.
Notation "m ;; k" := (bind m (fun _ => k))
  (at level 100, k at level 200, only parsing, right associativity) : life_scope.

Section Component.

Context (h : Host).

Local Open Scope life_scope.

(** [self.server.register_endpoint(uri, request_types, callback, auth_required=...)] *)
Definition do_register_endpoint (uri : string) (request_types : list string)
    (callback : handler) (auth_required : bool) : L unit :=
  match register_endpoint h uri request_types callback auth_required with
  | Some e => raise e
  | None =>
      fun tr => (Return tt, (tr ++ [RegisterEndpoint uri request_types callback auth_required])%list)
  end.

(** [self.server.register_event_handler(event_name, callback)] *)
Definition do_register_event_handler (event_name : string) (callback : handler) : L unit :=
  match register_event_handler h event_name callback with
  | Some e => raise e
  | None => fun tr => (Return tt, (tr ++ [RegisterEventHandler event_name callback])%list)
  end.

(** The [if self.ai_config is None:] block of [__init__], giving the final
    [self.ai_config]. *)
Definition resolve_ai_config (app : Application) : L (option AIConfig) :=
  match app_ai_config app with
  | Some cfg => ret (Some cfg)
  | None =>
      try_except
        (let! ai_cfg := lift (getsection h "ai") in
         match ai_cfg with
         | None => ret None
         | Some section =>
             lift (load_global "AIConfig") ;;
             let! cfg := lift (make_ai_config h section) in
             ret (Some cfg)
         end)
        (fun e =>
           if is_config_error e then
             Some (raise (config_error "[ai] section not found in configuration"))
           else None)
  end.

(** [AiDetection.__init__] *)
Definition __init__ : L AiDetection :=
  let! app := lift (lookup_application h) in
  let! resolved := resolve_ai_config app in
  do_register_endpoint "/api/v1/device/print/image" ["POST"] HandleImageUpload true ;;
  do_register_endpoint "/api/v1/predict" ["POST"] HandlePredict true ;;
  do_register_event_handler "server:klippy_ready" HandleKlippyReady ;;
  do_register_event_handler "server:klippy_shutdown" HandleKlippyShutdown ;;
  ret {| ai_config := resolved |}.

(** [load_component] *)
Definition load_component : L AiDetection := __init__.

(** [AiDetection._handle_klippy_ready] *)
Definition _handle_klippy_ready : L unit :=
  let! klippy := lift (lookup_klippy h) in
  lift (load_global "WebRequest") ;;
  let endpoint := "gcode/subscribe_output" in
  let request_args := {[ "response_template" := JStr "action:ai_snapshot" ]} in
  (fun tr => (Return tt, (tr ++ [KlippyRequest endpoint request_args])%list)) ;;
  lift (request klippy endpoint request_args) ;;
  ret tt.

(** [AiDetection._handle_klippy_shutdown] *)
Definition _handle_klippy_shutdown : L unit := ret tt.

End Component.

(** The registrations of a component that loads. *)
Definition registrations : list lifecycle_event :=
  [RegisterEndpoint "/api/v1/device/print/image" ["POST"] HandleImageUpload true;
   RegisterEndpoint "/api/v1/predict" ["POST"] HandlePredict true;
   RegisterEventHandler "server:klippy_ready" HandleKlippyReady;
   RegisterEventHandler "server:klippy_shutdown" HandleKlippyShutdown].

End Lifecycle.

(** *** More of the specification's vocabulary *)

Module Facts.

(** The log lines of a trace, with their levels. *)
Definition logged (tr : list event) : list level :=
  omap (fun ev => match ev with Log lvl _ => Some lvl | _ => None end) tr.

(** The error the upload handler raises for a failed write. *)
Definition save_failure (e : exn) : exn :=
  ServerError ("Failed to save image: " +:+ str e) 500.

Definition save_failure_logged : event :=
  Log EXCEPTION [Lit "Failed to save uploaded image"].

(** The line logged for a saved upload. *)
Definition upload_saved_logged (task_id path : string) : event :=
  Log INFO [Lit "AI Detection: Image saved for task "; Lit task_id; Lit " at "; Lit path].

(** The line logged for a prediction that was accepted. *)
Definition prediction_logged (task_id result : json) : event :=
  Log INFO [Lit "AI Detection: Prediction requested for task "; Fmt task_id;
            Lit ", response: "; Fmt result].

(** The line logged by the predict handler for a failure. *)
Definition predict_failure_logged : event :=
  Log EXCEPTION [Lit "Error processing prediction request"].

(** The error of a missing attribute of [self.ai_config] when it is [None]. *)
Definition no_attribute (attr : string) : exn :=
  PyError AttributeError ("'NoneType' object has no attribute '" +:+ attr +:+ "'").

(** The error [os.path.basename] raises for a value that is not a string. *)
Definition not_a_path (v : json) : exn :=
  PyError TypeError ("expected str, bytes or os.PathLike object, not " +:+ type_name v).

(** A JSON value that is not a string. *)
Definition not_a_string (v : json) : Prop :=
  match v with JStr _ => False | _ => True end.

(** The position of the last occurrence of a character, counted from the
    start of the string. *)
Fixpoint last_index (c : ascii) (s : string) : option nat :=
  match s with
  | EmptyString => None
  | String a s' =>
      match last_index c s' with
      | Some k => Some (S k)
      | None => if decide (a = c) then Some 0%nat else None
      end
  end.

(** The extensions a saved upload can carry. *)
Definition saved_extensions : list string := [EmptyString; ".jpg"; ".jpeg"; ".png"].

End Facts.

(** *** More concrete requests and worlds *)

Module Cases.

(** The remote service answers 200 with a body that is not JSON. *)
Definition garbled_world : World :=
  Scenario.world
    (Return {| status := 200;
               resp_text := Return "<html>";
               resp_json :=
                 Raise (PyError ContentTypeError
                          "Attempt to decode JSON with unexpected mimetype: text/html") |})
    (Some Scenario.jpeg) None.

(** The disk lets files be opened but not written. *)
Definition bad_write_world : World :=
  {| unix_seconds := 1700000000;
     host_address := "192.168.1.10";
     lookup_webcam := Return {| take_snapshot := Return (Some Scenario.jpeg) |};
     session_post := fun _ _ _ => Scenario.respond 200 "{}" Scenario.label_ok;
     open_wb := fun _ => None;
     file_write := fun _ _ => Some (PyError OSError "[Errno 5] Input/output error");
     no_data_message := fun key => "No data for argument: " +:+ key |}.

(** A component that was loaded without configuration. *)
Definition unconfigured : AiDetection := {| ai_config := None |}.

(** A predict body whose image URL is a number. *)
Definition numeric_body : gmap string json :=
  {[ "image_url" := JInt 5;
     "task_id" := JStr "t1";
     "callback_url" := JStr "http://caller/cb" ]}.

(** A server whose application component holds [held] and whose config
    helper answers [section] for the [ai] section. *)
Definition host (held : option AIConfig)
    (section : outcome (option (gmap string string))) : Lifecycle.Host :=
  {| Lifecycle.lookup_application := Return {| Lifecycle.app_ai_config := held |};
     Lifecycle.getsection := fun _ => section;
     Lifecycle.make_ai_config := fun _ => Return Scenario.cfg;
     Lifecycle.register_endpoint := fun _ _ _ _ => None;
     Lifecycle.register_event_handler := fun _ _ => None;
     Lifecycle.lookup_klippy :=
       Return {| Lifecycle.request := fun _ _ => Return JNull |} |}.

End Cases.

(** *** The upload handler's tests, as the handler makes them *)

Module Amended.

(** The four tests of the upload handler, in the order it makes them. *)
Inductive upload_test : Type :=
| HasFilePart        (* 'file' in web_request.files *)
| HasNamedFile       (* the file value is truthy and its filename is not empty *)
| HasTaskId          (* the task_id argument is present and not empty *)
| HasAllowedSuffix.  (* the lower-cased filename ends with .jpg, .jpeg or .png *)

Definition upload_tests : list upload_test :=
  [HasFilePart; HasNamedFile; HasTaskId; HasAllowedSuffix].

(** Whether a request passes one test, each test read on its own.  The body
    of the file plays no part in any of them. *)
Definition passes (req : WebRequest) (t : upload_test) : bool :=
  match t with
  | HasFilePart => bool_decide (is_Some (files req !! "file"))
  | HasNamedFile => bool_decide (is_Some (Spec.file_name req))
  | HasTaskId =>
      match args req !! "task_id" with
      | Some task_id => Str.truthy task_id
      | None => false
      end
  | HasAllowedSuffix =>
      match Spec.file_name req with
      | Some name => Str.endswith_any (Str.lower name) allowed_suffixes
      | None => false
      end
  end.

(** The first test a request fails, if any. *)
Definition first_failing (req : WebRequest) : option upload_test :=
  List.find (fun t => negb (passes req t)) upload_tests.

(** The reason reported for a failed test. *)
Definition failure_message (w : World) (req : WebRequest) (t : upload_test) : string :=
  match t with
  | HasFilePart => "No file uploaded"
  | HasNamedFile => "Empty file"
  | HasTaskId =>
      match args req !! "task_id" with
      | None => no_data_message w "task_id"
      | Some _ => "task_id is required"
      end
  | HasAllowedSuffix => "Invalid file type. Only jpg/jpeg/png allowed"
  end.

(** A file that lies in a directory itself, not below it nor outside it: its
    name has no slash, is the base name of its path, and the path is the
    directory, a slash unless the directory is empty or ends with one, and
    the name. *)
Definition directly_in (dir name path : string) : Prop :=
  occurs "/" name = false ∧
  os_path.basename path = name ∧
  (((dir = EmptyString ∨ Str.endswith dir "/" = true) ∧ path = dir +:+ name) ∨
   ((dir ≠ EmptyString ∧ Str.endswith dir "/" = false) ∧ path = dir +:+ "/" +:+ name)).

(** An upload with a name and a task id whose body has no bytes. *)
Definition zero_byte_upload : WebRequest :=
  {| files := {[ "file" := Some {| filename := Some "a.jpg"; body := [] |} ]};
     args := {[ "task_id" := "t1" ]};
     get_json := ∅ |}.

End Amended.

(** ** Properties *)

(** *** Strings *)

Lemma append_cons (c : ascii) (s t : string) : String c s +:+ t = String c (s +:+ t).
Proof. reflexivity. Qed.

Lemma append_empty_r (s : string) : s +:+ EmptyString = s.
Proof. induction s as [|c s IH]; [done |]. by rewrite append_cons, IH. Qed.

Lemma contains_suffix (prefix t : string) : Str.contains (prefix +:+ t) t.
Proof. exists prefix, EmptyString. by rewrite append_empty_r. Qed.

(** *** Running the monad *)

Ltac unfold_py :=
  unfold try_except, bind, ret, raise, lift, emit, log, post, getitem, fspath,
    ai_config_attr, write_file, get_str in *.

Ltac py_step := unfold_py; cbv beta iota zeta.

Section Predictor.

Context (w : World) (self : AiDetection) (cfg : AIConfig).
Hypothesis configured : ai_config self = Some cfg.

(** With a configuration and a string path, the predictor issues its one
    POST and then follows the outcome of the exchange. *)
Lemma _request_prediction_unfold (p : string) (task_id : json) (tr : list event) :
  _request_prediction w self (JStr p) task_id tr =
  try_except
    (let! resp := lift (Spec.exchange w cfg p task_id) in
     if decide (status resp ≠ 200) then
       let! error_text := lift (resp_text resp) in
       raise (ServerError ("AI service returned error: " +:+ error_text) (status resp))
     else
       let! result := lift (resp_json resp) in
       log INFO [Lit "AI Detection: Prediction requested for task "; Fmt task_id;
                 Lit ", response: "; Fmt result] ;;
       ret result)%py
    (_request_prediction_except task_id)
    (tr ++ [Spec.predict_post w cfg p task_id])%list.
Proof.
  unfold _request_prediction. unfold_py. simpl. rewrite configured. simpl.
  reflexivity.
Qed.

(** C1 (amended): when the outbound POST completes with status 200 the
    predictor returns the parsed JSON body unchanged; when it completes with
    any other status, 2xx or not, the predictor fails with an error whose
    status is the remote status and whose message contains the remote body. *)
Theorem C1_request_prediction_by_status (p : string) (task_id : json)
    (resp : response) (tr : list event) :
  Spec.exchange w cfg p task_id = Return resp →
  (status resp = 200 →
   ∀ result, resp_json resp = Return result →
     (_request_prediction w self (JStr p) task_id tr).1 = Return result) ∧
  (status resp ≠ 200 →
   ∀ error_text, resp_text resp = Return error_text →
     ∃ message,
       (_request_prediction w self (JStr p) task_id tr).1
         = Raise (ServerError message (status resp)) ∧
       Str.contains message error_text).
Proof.
  intros Hpost. rewrite _request_prediction_unfold.
  unfold_py. rewrite Hpost. split.
  - intros Hok result Hjson. destruct (decide (status resp ≠ 200)) as [Hne|_]; [done |].
    by rewrite Hjson.
  - intros Hne error_text Htext. destruct (decide (status resp ≠ 200)) as [_|Heq]; [| done].
    rewrite Htext. simpl. eexists. split; [reflexivity |]. apply contains_suffix.
Qed.

(** C3: when the outbound POST raises a timeout the predictor fails with
    status 504 and a message containing "request timeout"; when it raises a
    client error that is not a timeout (the connection could not be
    established) it fails with status 503 and a message that includes the
    text of the underlying error. *)
Theorem C3_transport_failures (p : string) (task_id : json) (e : exn)
    (tr : list event) :
  Spec.exchange w cfg p task_id = Raise e →
  (is_TimeoutError e = true →
   ∃ message,
     (_request_prediction w self (JStr p) task_id tr).1 = Raise (ServerError message 504) ∧
     Str.contains message "request timeout") ∧
  (is_TimeoutError e = false → is_ClientError e = true →
   ∃ message,
     (_request_prediction w self (JStr p) task_id tr).1 = Raise (ServerError message 503) ∧
     Str.contains message (str e)).
Proof.
  intros Hpost. rewrite _request_prediction_unfold.
  unfold_py. rewrite Hpost. unfold _request_prediction_except. split.
  - intros ->. simpl. eexists. split; [reflexivity |].
    by exists "AI service ", EmptyString.
  - intros -> ->. simpl. eexists. split; [reflexivity |]. apply contains_suffix.
Qed.

End Predictor.

(** *** The predict handler *)

Section PredictHandler.

Context (w : World) (self : AiDetection).

(** Validation passes exactly when the three required keys are bound. *)
Lemma check_required_passes (request_json : gmap string json) (tr : list event) :
  Forall (fun k => is_Some (request_json !! k)) required_fields →
  check_required required_fields request_json tr = (Return tt, tr).
Proof.
  generalize required_fields. intros fields. induction 1 as [|k ks [v Hv] _ IH]; [done |].
  simpl. by rewrite Hv.
Qed.

(** Validation stops at the first required key that is not bound. *)
Lemma check_required_fails (request_json : gmap string json) (tr : list event)
    (before after : list string) (field : string) :
  Forall (fun k => is_Some (request_json !! k)) before →
  request_json !! field = None →
  check_required (before ++ field :: after) request_json tr
  = (Raise (ServerError ("Missing required field: " +:+ field) 400), tr).
Proof.
  intros Hbefore Hfield. induction Hbefore as [|k ks [v Hv] _ IH]; simpl.
  - by rewrite Hfield.
  - by rewrite Hv.
Qed.

(** The callback URL of every prediction request is the one the predictor
    derives from the host info. *)
Lemma predict_data_callback (image_name : string) (task_id : json) :
  predict_data_of w image_name task_id !! "callback_url"
  = Some (JStr (callback_url_of w)).
Proof. unfold predict_data_of. by simplify_map_eq. Qed.

(** The predictor only adds events to the trace, and every POST it adds
    carries the derived callback URL. *)
Lemma _request_prediction_trace (image_path task_id : json) (tr : list event) :
  ∃ evs,
    (_request_prediction w self image_path task_id tr).2 = (tr ++ evs)%list ∧
    Forall (Spec.derived_callback w) (Spec.posted evs).
Proof.
  assert (∃ evs, tr = (tr ++ evs)%list ∧
            Forall (Spec.derived_callback w) (Spec.posted evs)) as Hquiet.
  { exists []. by rewrite app_nil_r. }
  destruct (ai_config self) as [cfg|] eqn:Hcfg.
  - destruct image_path as [| | | |p| |];
      try (unfold _request_prediction; py_step; simpl; apply Hquiet).
    rewrite (_request_prediction_unfold w self cfg Hcfg).
    unfold _request_prediction_except. py_step.
    repeat (case_match; simplify_eq/=; py_step);
      (eexists; split;
       [rewrite <- ?app_assoc; reflexivity
       | unfold Spec.predict_post; simpl; repeat constructor;
         apply predict_data_callback]).
  - unfold _request_prediction. py_step. rewrite Hcfg.
    destruct image_path; simpl; apply Hquiet.
Qed.

(** C5: a predict body that lacks one of image_url, task_id, callback_url is
    refused with a 400 error naming the first missing field in that order,
    and the handler does nothing else; a body holding only task_id is
    refused naming image_url. *)
Theorem C5_first_missing_field_named (req : WebRequest) (tr : list event) :
  (∃ k, k ∈ required_fields ∧ get_json req !! k = None) →
  ∃ field,
    Spec.is_first_missing (get_json req) field ∧
    _handle_predict w self req tr
    = (Raise (ServerError ("Missing required field: " +:+ field) 400), tr) ∧
    (∀ v, get_json req = {[ "task_id" := v ]} → field = "image_url").
Proof.
  intros Hlacks.
  assert (∃ field, Spec.is_first_missing (get_json req) field) as [field Hfirst].
  { destruct (get_json req !! "image_url") as [v1|] eqn:H1;
      [| by exists "image_url", [], ["task_id"; "callback_url"]].
    destruct (get_json req !! "task_id") as [v2|] eqn:H2;
      [| exists "task_id", ["image_url"], ["callback_url"];
         split_and!; [done | by repeat constructor | done]].
    destruct (get_json req !! "callback_url") as [v3|] eqn:H3;
      [| exists "callback_url", ["image_url"; "task_id"], [];
         split_and!; [done | by repeat constructor | done]].
    destruct Hlacks as (k & Hk & Hnone). unfold required_fields in Hk.
    rewrite !elem_of_cons, elem_of_nil in Hk.
    destruct Hk as [Hk|[Hk|[Hk|[]]]]; subst k; congruence. }
  exists field. split; [done |]. split.
  - destruct Hfirst as (before & after & Hsplit & Hbefore & Hfield).
    unfold _handle_predict, bind. rewrite Hsplit.
    by rewrite check_required_fails.
  - intros v Hbody. destruct Hfirst as (before & after & Hsplit & Hbefore & Hfield).
    rewrite Hbody in Hbefore. unfold required_fields in Hsplit.
    destruct before as [|k before]; simpl in Hsplit; [congruence |].
    injection Hsplit as <- _. apply Forall_cons_1 in Hbefore as [[? Himage] _].
    by rewrite lookup_singleton_ne in Himage.
Qed.

(** C2: when the three keys are bound and the delegated predictor call
    raises an exception (an instance of [Exception]: the predictor's own
    503, 504 and remote-status errors, or any other), the predict handler
    logs it and raises a 500 error whose message is the message of that
    exception. *)
Theorem C2_predictor_errors_become_500 (req : WebRequest) (image_url task_id : json)
    (e : exn) (tr tr' : list event) :
  get_json req !! "image_url" = Some image_url →
  get_json req !! "task_id" = Some task_id →
  is_Some (get_json req !! "callback_url") →
  _request_prediction w self image_url task_id tr = (Raise e, tr') →
  is_Exception e = true →
  _handle_predict w self req tr
  = (Raise (ServerError (str e) 500),
     (tr' ++ [Log EXCEPTION [Lit "Error processing prediction request"]])%list).
Proof.
  intros Himage Htask Hcallback Hraises Hexception.
  unfold _handle_predict, bind at 1. rewrite check_required_passes.
  - unfold_py. rewrite Himage, Htask. py_step.
    rewrite Hraises, Hexception. reflexivity.
  - unfold required_fields. repeat constructor; by eauto.
Qed.

(** Validation adds nothing to the trace. *)
Lemma check_required_quiet (fields : list string) (request_json : gmap string json)
    (tr : list event) :
  (check_required fields request_json tr).2 = tr.
Proof. induction fields as [|k ks IH]; simpl; [done |]. by case_match. Qed.

(** Validation looks only at which keys are bound. *)
Lemma check_required_presence (fields : list string) (b1 b2 : gmap string json)
    (tr : list event) :
  Forall (fun k => is_Some (b1 !! k) ↔ is_Some (b2 !! k)) fields →
  check_required fields b1 tr = check_required fields b2 tr.
Proof.
  induction 1 as [|k ks Hk _ IH]; simpl; [done |].
  destruct (b1 !! k) as [v1|] eqn:H1, (b2 !! k) as [v2|] eqn:H2; try done.
  - destruct Hk as [Hk _]. destruct Hk as [? ?]; [by eexists | done].
  - destruct Hk as [_ Hk]. destruct Hk as [? ?]; [by eexists | done].
Qed.

(** The predict handler only adds events to the trace, and every POST it
    adds carries the derived callback URL. *)
Lemma _handle_predict_trace (req : WebRequest) (tr : list event) :
  ∃ evs,
    (_handle_predict w self req tr).2 = (tr ++ evs)%list ∧
    Forall (Spec.derived_callback w) (Spec.posted evs).
Proof.
  unfold _handle_predict, bind at 1.
  pose proof (check_required_quiet required_fields (get_json req) tr) as Hquiet.
  destruct (check_required required_fields (get_json req) tr) as [[[]|e] tr1];
    simpl in Hquiet; subst tr1; [| exists []; by rewrite app_nil_r].
  py_step.
  destruct (get_json req !! "image_url") as [image_url|];
    [| simpl; exists [Log EXCEPTION [Lit "Error processing prediction request"]];
       split; [done | by constructor]].
  py_step.
  destruct (get_json req !! "task_id") as [task_id|];
    [| simpl; exists [Log EXCEPTION [Lit "Error processing prediction request"]];
       split; [done | by constructor]].
  py_step.
  destruct (_request_prediction_trace image_url task_id tr) as (evs & Hevs & Hall).
  destruct (_request_prediction w self image_url task_id tr) as [[result|e] tr2];
    simpl in Hevs; subst tr2; [by exists evs |].
  destruct (is_Exception e); [| by exists evs].
  exists (evs ++ [Log EXCEPTION [Lit "Error processing prediction request"]])%list.
  split; [by rewrite app_assoc |].
  unfold Spec.posted. rewrite omap_app. simpl. by rewrite app_nil_r.
Qed.

(** C9: two predict bodies that differ only in the value bound to
    callback_url lead to the same run of the handler: the same result, the
    same trace, hence the same outbound POST bodies; and the callback URL of
    every POST the handler issues is the one derived from the host info. *)
Theorem C9_callback_url_has_no_influence (req1 req2 : WebRequest) (tr : list event) :
  (∀ k, k ≠ "callback_url" → get_json req1 !! k = get_json req2 !! k) →
  is_Some (get_json req1 !! "callback_url") →
  is_Some (get_json req2 !! "callback_url") →
  _handle_predict w self req1 tr = _handle_predict w self req2 tr ∧
  Spec.posted (_handle_predict w self req1 tr).2
  = Spec.posted (_handle_predict w self req2 tr).2 ∧
  ∃ evs,
    (_handle_predict w self req1 tr).2 = (tr ++ evs)%list ∧
    Forall (Spec.derived_callback w) (Spec.posted evs).
Proof.
  intros Hagree Hcb1 Hcb2.
  assert (_handle_predict w self req1 tr = _handle_predict w self req2 tr) as Hsame.
  { unfold _handle_predict, bind at 1 3.
    rewrite (check_required_presence required_fields (get_json req1) (get_json req2)).
    - unfold getitem.
      by rewrite (Hagree "image_url"), (Hagree "task_id").
    - unfold required_fields.
      repeat apply Forall_cons_2; [by rewrite Hagree | by rewrite Hagree | done |].
      apply Forall_nil_2. }
  split; [done |]. split; [by rewrite Hsame |]. apply _handle_predict_trace.
Qed.

End PredictHandler.

(** *** File names and extensions *)

Lemma ascii_lower_dot (c : ascii) : Str.ascii_lower c = "."%char ↔ c = "."%char.
Proof.
  destruct c as [[] [] [] [] [] [] [] []]; vm_compute; split; congruence.
Qed.

Lemma last_dot_suffix_lower (s : string) :
  Spec.last_dot_suffix (Str.lower s) = Str.lower <$> Spec.last_dot_suffix s.
Proof.
  induction s as [|c s IH]; [done |]. simpl. rewrite IH.
  destruct (Spec.last_dot_suffix s) as [e|]; [done |]. simpl.
  destruct (decide (c = "."%char)) as [->|Hc]; [done |].
  destruct (decide (Str.ascii_lower c = "."%char)) as [Hl|_]; [| done].
  destruct Hc. by apply ascii_lower_dot.
Qed.

(** A name ends with a dotted suffix that has no further dot exactly when
    that suffix is the text from the name's last dot on. *)
Lemma endswith_last_dot_suffix (s t : string) :
  Spec.last_dot_suffix t = None →
  Str.endswith s (String "." t) = true ↔ Spec.last_dot_suffix s = Some (String "." t).
Proof.
  intros Ht. induction s as [|c s IH]; [done |].
  simpl. destruct (decide (String c s = String "." t)) as [Heq|Hne].
  - injection Heq as -> ->. rewrite Ht. by destruct (decide _).
  - rewrite IH. destruct (Spec.last_dot_suffix s) as [e|]; [done |].
    split; [done |]. destruct (decide (c = "."%char)); congruence.
Qed.

(** The handler's test on the lower-cased name is the spec's test on the
    extension. *)
Lemma endswith_any_extension_allowed (name : string) :
  Str.endswith_any (Str.lower name) allowed_suffixes = Spec.extension_allowed name.
Proof.
  unfold Spec.extension_allowed, Spec.extension, Str.endswith_any, allowed_suffixes.
  pose proof (endswith_last_dot_suffix (Str.lower name) "jpg" eq_refl) as Hjpg.
  pose proof (endswith_last_dot_suffix (Str.lower name) "jpeg" eq_refl) as Hjpeg.
  pose proof (endswith_last_dot_suffix (Str.lower name) "png" eq_refl) as Hpng.
  rewrite last_dot_suffix_lower in Hjpg, Hjpeg, Hpng.
  apply eq_true_iff_eq. rewrite bool_decide_eq_true. simpl.
  rewrite !orb_true_iff, !elem_of_cons, elem_of_nil, Hjpg, Hjpeg, Hpng.
  destruct (Spec.last_dot_suffix name) as [e|]; simpl; intuition congruence.
Qed.

(** *** The upload handler *)

Section UploadHandler.

Context (w : World) (self : AiDetection).

Local Arguments Str.endswith_any : simpl never.

(** The name and body the handler goes on with are those of the spec's
    second check. *)
Lemma named_file_name (req : WebRequest) (file : option UploadedFile) :
  files req !! "file" = Some file →
  Spec.file_name req = fst <$> named_file file.
Proof.
  intros Hfile. unfold Spec.file_name, named_file. rewrite Hfile.
  destruct file as [f|]; [| done]. destruct (filename f) as [name|]; [| done].
  by destruct (Str.truthy name).
Qed.

(** A request that fails a check is refused with the reason of the first
    check it fails, and nothing is added to the trace. *)
Lemma _handle_image_upload_refused (req : WebRequest) (c : Spec.upload_check)
    (tr : list event) :
  Spec.first_failing req = Some c →
  _handle_image_upload w self req tr
  = (Raise (ServerError (Spec.failure_message w req c) 400), tr).
Proof.
  unfold Spec.first_failing, Spec.upload_checks, _handle_image_upload. simpl.
  destruct (files req !! "file") as [file|] eqn:Hfile; simpl;
    [| intros [= <-]; reflexivity].
  rewrite (named_file_name req file Hfile).
  destruct (named_file file) as [[name data]|]; simpl;
    [| intros [= <-]; reflexivity].
  py_step. destruct (args req !! "task_id") as [task_id|] eqn:Htask; simpl;
    [| intros [= <-]; simpl; rewrite Htask; reflexivity].
  destruct (Str.truthy task_id); simpl;
    [| intros [= <-]; simpl; rewrite Htask; reflexivity].
  rewrite endswith_any_extension_allowed.
  destruct (Spec.extension_allowed name); simpl; [done |].
  intros [= <-]. reflexivity.
Qed.

(** A request that passes the four checks has a named file and a task id
    that are not empty, and an allowed extension. *)
Lemma first_failing_none (req : WebRequest) (f : UploadedFile) (name task_id : string) :
  Spec.first_failing req = None →
  files req !! "file" = Some (Some f) →
  filename f = Some name →
  args req !! "task_id" = Some task_id →
  Str.truthy name = true ∧ Str.truthy task_id = true ∧
  Spec.extension_allowed name = true.
Proof.
  unfold Spec.first_failing, Spec.upload_checks. simpl. unfold Spec.file_name.
  intros Hnone Hfile Hname Htask. rewrite Hfile, Hname, Htask in Hnone. simpl in Hnone.
  destruct (Str.truthy name); simpl in Hnone; [| done].
  destruct (Str.truthy task_id); simpl in Hnone; [| done].
  by destruct (Spec.extension_allowed name).
Qed.

End UploadHandler.

(** *** Empty values *)

Section EmptyValues.

Context (w : World) (self : AiDetection) (cfg : AIConfig).
Hypothesis configured : ai_config self = Some cfg.

(** C10: a predict body whose three required keys are bound to empty
    strings passes validation, and the handler goes on to issue the outbound
    prediction request; the upload handler, given a file and an empty
    task_id, refuses the request with a 400 error. *)
Theorem C10_empty_values_pass_predict_validation (req upload : WebRequest)
    (file : option UploadedFile) (name : string) (data : list byte)
    (tr : list event) :
  get_json req !! "image_url" = Some (JStr EmptyString) →
  get_json req !! "task_id" = Some (JStr EmptyString) →
  get_json req !! "callback_url" = Some (JStr EmptyString) →
  files upload !! "file" = Some file →
  named_file file = Some (name, data) →
  args upload !! "task_id" = Some EmptyString →
  check_required required_fields (get_json req) tr = (Return tt, tr) ∧
  (∃ evs,
     (_handle_predict w self req tr).2
     = (tr ++ Spec.predict_post w cfg EmptyString (JStr EmptyString) :: evs)%list) ∧
  _handle_image_upload w self upload tr
  = (Raise (ServerError "task_id is required" 400), tr).
Proof.
  intros Himage Htask Hcallback Hfile Hnamed Hempty.
  assert (check_required required_fields (get_json req) tr = (Return tt, tr)) as Hvalid.
  { apply check_required_passes. unfold required_fields.
    repeat apply Forall_cons_2; eauto. }
  split; [done |]. split.
  - unfold _handle_predict, bind at 1. rewrite Hvalid.
    py_step. rewrite Himage, Htask. py_step.
    rewrite (_request_prediction_unfold w self cfg configured).
    unfold _request_prediction_except. py_step.
    repeat (case_match; simplify_eq/=; py_step);
      eexists; rewrite <- ?app_assoc; reflexivity.
  - unfold _handle_image_upload. rewrite Hfile, Hnamed. py_step.
    by rewrite Hempty.
Qed.

End EmptyValues.

(** *** The snapshot handler *)

Section SnapshotHandler.

Context (w : World) (self : AiDetection).

(** C7: when the webcam returns no image the snapshot handler logs an error
    and returns: it raises nothing, writes no file and posts nothing. *)
Theorem C7_no_image_no_prediction (webcam : WebcamManager) (tr : list event) :
  lookup_webcam w = Return webcam →
  take_snapshot webcam = Return None →
  _handle_snapshot_request w self tr
  = (Return tt, (tr ++ [Log ERROR [Lit "Failed to take snapshot"]])%list) ∧
  Spec.written (_handle_snapshot_request w self tr).2 = Spec.written tr ∧
  Spec.posted (_handle_snapshot_request w self tr).2 = Spec.posted tr.
Proof.
  intros Hwebcam Hnone.
  assert (_handle_snapshot_request w self tr
          = (Return tt, (tr ++ [Log ERROR [Lit "Failed to take snapshot"]])%list)) as ->.
  { unfold _handle_snapshot_request, _handle_snapshot_request_try. py_step.
    rewrite Hwebcam, Hnone. reflexivity. }
  split; [done |]. cbn [snd].
  unfold Spec.written, Spec.posted. rewrite !omap_app. simpl.
  by rewrite !app_nil_r.
Qed.

(** How the handler treats the outcome of its [try] block. *)
Lemma _handle_snapshot_request_outcome (tr : list event) :
  match _handle_snapshot_request_try w self tr with
  | (Return _, tr') => _handle_snapshot_request w self tr = (Return tt, tr')
  | (Raise e, tr') =>
      if is_Exception e then
        _handle_snapshot_request w self tr
        = (Raise (Spec.snapshot_failure e), (tr' ++ [Spec.snapshot_failure_logged])%list)
      else _handle_snapshot_request w self tr = (Raise e, tr')
  end.
Proof.
  unfold _handle_snapshot_request, try_except, _handle_snapshot_request_except.
  destruct (_handle_snapshot_request_try w self tr) as [[[]|e] tr']; [done |].
  by destruct (is_Exception e).
Qed.

(** C8 (amended): a failure inside the snapshot handler is not swallowed.
    Whenever the handler's [try] block raises an exception (an instance of
    [Exception]), the handler logs it and raises to its caller a 500 error
    whose message is "Failed to process snapshot: " followed by the message
    of that exception; when the block completes, the handler returns no
    value.  In particular a failed lookup of the webcam, a failed write of
    the snapshot and a failed prediction request each end in that 500 error. *)
Theorem C8_snapshot_failures_reraised (tr : list event) :
  match _handle_snapshot_request_try w self tr with
  | (Return _, tr') => _handle_snapshot_request w self tr = (Return tt, tr')
  | (Raise e, tr') =>
      if is_Exception e then
        _handle_snapshot_request w self tr
        = (Raise (Spec.snapshot_failure e), (tr' ++ [Spec.snapshot_failure_logged])%list)
      else _handle_snapshot_request w self tr = (Raise e, tr')
  end ∧
  (∀ e,
     lookup_webcam w = Raise e → is_Exception e = true →
     _handle_snapshot_request w self tr
     = (Raise (Spec.snapshot_failure e), (tr ++ [Spec.snapshot_failure_logged])%list)) ∧
  (∀ webcam data cfg e,
     lookup_webcam w = Return webcam → take_snapshot webcam = Return (Some data) →
     ai_config self = Some cfg →
     open_wb w (Spec.snapshot_file w cfg) = Some e → is_Exception e = true →
     _handle_snapshot_request w self tr
     = (Raise (Spec.snapshot_failure e), (tr ++ [Spec.snapshot_failure_logged])%list)) ∧
  (∀ webcam data cfg e tr',
     lookup_webcam w = Return webcam → take_snapshot webcam = Return (Some data) →
     ai_config self = Some cfg →
     open_wb w (Spec.snapshot_file w cfg) = None →
     file_write w (Spec.snapshot_file w cfg) data = None →
     _request_prediction w self (JStr (Spec.snapshot_file w cfg))
       (JStr (Spec.snapshot_task_id w)) (tr ++ Spec.snapshot_saved w cfg data)%list
     = (Raise e, tr') →
     is_Exception e = true →
     _handle_snapshot_request w self tr
     = (Raise (Spec.snapshot_failure e), (tr' ++ [Spec.snapshot_failure_logged])%list)).
Proof.
  pose proof (_handle_snapshot_request_outcome tr) as Houtcome.
  split; [exact Houtcome |]. split; [| split].
  - intros e Hlookup Hexception.
    unfold _handle_snapshot_request_try in Houtcome. py_step.
    rewrite Hlookup in Houtcome. by rewrite Hexception in Houtcome.
  - intros webcam data cfg e Hlookup Hsnapshot Hcfg Hopen Hexception.
    unfold _handle_snapshot_request_try in Houtcome. py_step.
    rewrite Hlookup, Hsnapshot, Hcfg in Houtcome. py_step.
    fold (Spec.snapshot_task_id w) in Houtcome.
    fold (Spec.snapshot_file w cfg) in Houtcome.
    rewrite Hopen in Houtcome. by rewrite Hexception in Houtcome.
  - intros webcam data cfg e tr' Hlookup Hsnapshot Hcfg Hopen Hwrite Hpredict Hexception.
    unfold _handle_snapshot_request_try in Houtcome. py_step.
    rewrite Hlookup, Hsnapshot, Hcfg in Houtcome. py_step.
    fold (Spec.snapshot_task_id w) in Houtcome.
    fold (Spec.snapshot_file w cfg) in Houtcome.
    rewrite Hopen in Houtcome. py_step. rewrite Hwrite in Houtcome. py_step.
    unfold Spec.snapshot_saved in Hpredict.
    rewrite <- !app_assoc in Houtcome. simpl in Houtcome.
    rewrite Hpredict in Houtcome. by rewrite Hexception in Houtcome.
Qed.

End SnapshotHandler.

(** ** The properties at concrete inputs *)

(** C1, as stated, fails: a POST that completes with status 201 and a JSON
    body does not make the predictor return that body; the predictor raises
    an error with status 201. *)
Lemma C1_status_201_is_an_error :
  Spec.exchange Scenario.created_world Scenario.cfg "a.jpg" (JStr "t1")
  = Scenario.respond 201 "created" Scenario.label_ok ∧
  (200 ≤ 201 < 300)%Z ∧
  (_request_prediction Scenario.created_world Scenario.component
     (JStr "a.jpg") (JStr "t1") []).1
  = Raise (ServerError "AI service returned error: created" 201) ∧
  (_request_prediction Scenario.created_world Scenario.component
     (JStr "a.jpg") (JStr "t1") []).1
  ≠ Return Scenario.label_ok.
Proof. vm_compute. repeat split; congruence. Qed.

Lemma C1_request_prediction_by_status_witness :
  (_request_prediction Scenario.ok_world Scenario.component
     (JStr "a.jpg") (JStr "t1") []).1 = Return Scenario.label_ok ∧
  ∃ message,
    (_request_prediction Scenario.rejected_world Scenario.component
       (JStr "a.jpg") (JStr "t1") []).1 = Raise (ServerError message 422) ∧
    Str.contains message "bad image".
Proof.
  split.
  - apply (proj1 (C1_request_prediction_by_status Scenario.ok_world
                    Scenario.component Scenario.cfg eq_refl "a.jpg" (JStr "t1")
                    {| status := 200; resp_text := Return "{}";
                       resp_json := Return Scenario.label_ok |} [] eq_refl)).
    + reflexivity.
    + reflexivity.
  - apply (proj2 (C1_request_prediction_by_status Scenario.rejected_world
                    Scenario.component Scenario.cfg eq_refl "a.jpg" (JStr "t1")
                    {| status := 422; resp_text := Return "bad image";
                       resp_json := Return JNull |} [] eq_refl)).
    + vm_compute. congruence.
    + reflexivity.
Defined.

Lemma C3_transport_failures_witness :
  (∃ message,
     (_request_prediction Scenario.timeout_world Scenario.component
        (JStr "a.jpg") (JStr "t1") []).1 = Raise (ServerError message 504) ∧
     Str.contains message "request timeout") ∧
  (∃ message,
     (_request_prediction Scenario.refused_world Scenario.component
        (JStr "a.jpg") (JStr "t1") []).1 = Raise (ServerError message 503) ∧
     Str.contains message "Cannot connect to host ai.local:8000").
Proof.
  split.
  - apply (proj1 (C3_transport_failures Scenario.timeout_world Scenario.component
                    Scenario.cfg eq_refl "a.jpg" (JStr "t1")
                    (PyError TimeoutError EmptyString) [] eq_refl)).
    reflexivity.
  - apply (proj2 (C3_transport_failures Scenario.refused_world Scenario.component
                    Scenario.cfg eq_refl "a.jpg" (JStr "t1")
                    (PyError ClientConnectorError "Cannot connect to host ai.local:8000")
                    [] eq_refl)).
    + reflexivity.
    + reflexivity.
Defined.

Lemma C2_predictor_errors_become_500_witness :
  (_handle_predict Scenario.timeout_world Scenario.component
     (Scenario.predict_request (Scenario.predict_body (JStr "http://caller/cb"))) []).1
  = Raise (ServerError "AI service request timeout" 500).
Proof.
  rewrite (C2_predictor_errors_become_500 Scenario.timeout_world Scenario.component
             (Scenario.predict_request (Scenario.predict_body (JStr "http://caller/cb")))
             (JStr "http://printer/files/a.jpg") (JStr "t1")
             (ServerError "AI service request timeout" 504) []
             (_request_prediction Scenario.timeout_world Scenario.component
                (JStr "http://printer/files/a.jpg") (JStr "t1") []).2).
  - reflexivity.
  - vm_compute. reflexivity.
  - vm_compute. reflexivity.
  - vm_compute. eexists. reflexivity.
  - vm_compute. reflexivity.
  - reflexivity.
Defined.

Lemma C5_first_missing_field_named_witness :
  ∃ field,
    Spec.is_first_missing (get_json Scenario.only_task_id) field ∧
    _handle_predict Scenario.ok_world Scenario.component Scenario.only_task_id []
    = (Raise (ServerError ("Missing required field: " +:+ field) 400), []) ∧
    (∀ v, get_json Scenario.only_task_id = {[ "task_id" := v ]} → field = "image_url").
Proof.
  apply (C5_first_missing_field_named Scenario.ok_world Scenario.component
           Scenario.only_task_id []).
  exists "image_url". split.
  - unfold required_fields. constructor.
  - vm_compute. reflexivity.
Defined.

(** C6, as stated, fails: for an upload named A.JPG the saved file does not
    carry the uploaded extension .JPG but the lower-cased .jpg. *)
Lemma C6_saved_extension_is_lower_cased :
  Spec.first_failing (Scenario.upload_request "A.JPG" "t1") = None ∧
  (_handle_image_upload Scenario.ok_world Scenario.component
     (Scenario.upload_request "A.JPG" "t1") []).1 = Return (success JNull) ∧
  Spec.written
    (_handle_image_upload Scenario.ok_world Scenario.component
       (Scenario.upload_request "A.JPG" "t1") []).2
  = ["/data/ai_snapshots/t1_1700000000.jpg"; "/data/ai_snapshots/t1_1700000000.jpg"] ∧
  os_path.join (snapshot_path Scenario.cfg)
    (Spec.upload_name_as_uploaded "t1" 1700000000 "A.JPG")
  = "/data/ai_snapshots/t1_1700000000.JPG" ∧
  "/data/ai_snapshots/t1_1700000000.JPG" ≠ "/data/ai_snapshots/t1_1700000000.jpg".
Proof. vm_compute. repeat split; congruence. Qed.

Lemma C7_no_image_no_prediction_witness :
  _handle_snapshot_request Scenario.blind_world Scenario.component []
  = (Return tt, [Log ERROR [Lit "Failed to take snapshot"]]) ∧
  Spec.written (_handle_snapshot_request Scenario.blind_world Scenario.component []).2
  = Spec.written [] ∧
  Spec.posted (_handle_snapshot_request Scenario.blind_world Scenario.component []).2
  = Spec.posted [].
Proof.
  apply (C7_no_image_no_prediction Scenario.blind_world Scenario.component
           {| take_snapshot := Return None |} []).
  - reflexivity.
  - reflexivity.
Defined.

(** C8, as stated, fails: when the disk refuses the snapshot the handler
    does not swallow the failure but raises a 500 error to its caller. *)
Lemma C8_full_disk_raises :
  _handle_snapshot_request Scenario.full_disk_world Scenario.component []
  = (Raise (ServerError
              "Failed to process snapshot: [Errno 28] No space left on device" 500),
     [Log EXCEPTION [Lit "Error processing snapshot request"]]) ∧
  ¬ ∃ tr, _handle_snapshot_request Scenario.full_disk_world Scenario.component []
          = (Return tt, tr).
Proof.
  assert (_handle_snapshot_request Scenario.full_disk_world Scenario.component []
          = (Raise (ServerError
                      "Failed to process snapshot: [Errno 28] No space left on device" 500),
             [Log EXCEPTION [Lit "Error processing snapshot request"]])) as Hrun.
  { vm_compute. reflexivity. }
  split; [exact Hrun |]. intros [tr Htr]. rewrite Hrun in Htr. discriminate.
Qed.

Lemma C8_snapshot_failures_reraised_witness :
  _handle_snapshot_request Scenario.full_disk_world Scenario.component []
  = (Raise (Spec.snapshot_failure (PyError OSError "[Errno 28] No space left on device")),
     ([] ++ [Spec.snapshot_failure_logged])%list).
Proof.
  apply (proj1 (proj2 (proj2 (C8_snapshot_failures_reraised Scenario.full_disk_world
                                Scenario.component [])))
           {| take_snapshot := Return (Some Scenario.jpeg) |} Scenario.jpeg Scenario.cfg
           (PyError OSError "[Errno 28] No space left on device")).
  - reflexivity.
  - reflexivity.
  - reflexivity.
  - reflexivity.
  - reflexivity.
Defined.

Lemma C9_callback_url_has_no_influence_witness :
  _handle_predict Scenario.ok_world Scenario.component
    (Scenario.predict_request (Scenario.predict_body (JStr "http://caller/cb"))) []
  = _handle_predict Scenario.ok_world Scenario.component
      (Scenario.predict_request (Scenario.predict_body (JStr "http://other/hook"))) [] ∧
  Spec.posted
    (_handle_predict Scenario.ok_world Scenario.component
       (Scenario.predict_request (Scenario.predict_body (JStr "http://caller/cb"))) []).2
  = Spec.posted
      (_handle_predict Scenario.ok_world Scenario.component
         (Scenario.predict_request (Scenario.predict_body (JStr "http://other/hook"))) []).2 ∧
  ∃ evs,
    (_handle_predict Scenario.ok_world Scenario.component
       (Scenario.predict_request (Scenario.predict_body (JStr "http://caller/cb"))) []).2
    = ([] ++ evs)%list ∧
    Forall (Spec.derived_callback Scenario.ok_world) (Spec.posted evs).
Proof.
  apply (C9_callback_url_has_no_influence Scenario.ok_world Scenario.component
           (Scenario.predict_request (Scenario.predict_body (JStr "http://caller/cb")))
           (Scenario.predict_request (Scenario.predict_body (JStr "http://other/hook")))
           []).
  - intros k Hk. simpl. unfold Scenario.predict_body.
    destruct (decide (k = "image_url")) as [->|Himage]; [reflexivity |].
    destruct (decide (k = "task_id")) as [->|Htask]; [reflexivity |].
    rewrite !lookup_insert_ne by congruence.
    rewrite !lookup_singleton_ne by congruence. reflexivity.
  - vm_compute. eexists. reflexivity.
  - vm_compute. eexists. reflexivity.
Defined.

Lemma C10_empty_values_pass_predict_validation_witness :
  check_required required_fields
    (get_json (Scenario.predict_request Scenario.empty_body)) [] = (Return tt, []) ∧
  (∃ evs,
     (_handle_predict Scenario.ok_world Scenario.component
        (Scenario.predict_request Scenario.empty_body) []).2
     = ([] ++ Spec.predict_post Scenario.ok_world Scenario.cfg EmptyString
                (JStr EmptyString) :: evs)%list) ∧
  _handle_image_upload Scenario.ok_world Scenario.component
    (Scenario.upload_request "a.jpg" EmptyString) []
  = (Raise (ServerError "task_id is required" 400), []).
Proof.
  apply (C10_empty_values_pass_predict_validation Scenario.ok_world
           Scenario.component Scenario.cfg eq_refl
           (Scenario.predict_request Scenario.empty_body)
           (Scenario.upload_request "a.jpg" EmptyString)
           (Some {| filename := Some "a.jpg"; body := Scenario.jpeg |})
           "a.jpg" Scenario.jpeg []).
  - vm_compute. reflexivity.
  - vm_compute. reflexivity.
  - vm_compute. reflexivity.
  - vm_compute. reflexivity.
  - reflexivity.
  - vm_compute. reflexivity.
Defined.

(** *** The path functions at concrete inputs *)

Example basename_of_path : os_path.basename "/srv/snap/a.b.jpg" = "a.b.jpg".
Proof. reflexivity. Qed.

Example splitext_last_dot :
  os_path.splitext "dir.d/photo.tar.jpg" = ("dir.d/photo.tar", ".jpg").
Proof. reflexivity. Qed.

Example splitext_leading_dots : os_path.splitext "..jpg" = ("..jpg", EmptyString).
Proof. reflexivity. Qed.

Example splitext_hidden_file : os_path.splitext "a/.png" = ("a/.png", EmptyString).
Proof. reflexivity. Qed.

Example splitext_dot_in_directory : os_path.splitext "a.d/png" = ("a.d/png", EmptyString).
Proof. reflexivity. Qed.

Example join_adds_separator : os_path.join "/snap" "t_1.jpg" = "/snap/t_1.jpg".
Proof. reflexivity. Qed.

Example join_keeps_separator : os_path.join "/snap/" "t_1.jpg" = "/snap/t_1.jpg".
Proof. reflexivity. Qed.

Example join_absolute_component : os_path.join "/snap" "/etc/t_1.jpg" = "/etc/t_1.jpg".
Proof. reflexivity. Qed.

Example lower_mixed_case : Str.lower "Photo.JPG" = "photo.jpg".
Proof. reflexivity. Qed.

Example pretty_unix_seconds : pretty 1700000000 = "1700000000".
Proof. vm_compute. reflexivity. Qed.


(** ** Further properties *)

(** *** Characters and positions *)

Lemma occurs_append (c : ascii) (s t : string) :
  occurs c (s +:+ t) = occurs c s || occurs c t.
Proof.
  induction s as [|a s IH]; [done |]. rewrite append_cons. simpl.
  by destruct (decide (a = c)).
Qed.

Lemma rfind_from_last_index (c : ascii) (s : string) (i found : Z) :
  Str.rfind_from c s i found
  = match Facts.last_index c s with
    | Some k => (i + Z.of_nat k)%Z
    | None => found
    end.
Proof.
  revert i found. induction s as [|a s IH]; intros i found; [done |].
  simpl. rewrite IH. destruct (Facts.last_index c s) as [k|]; [lia |].
  destruct (decide (a = c)); [lia | done].
Qed.

Lemma rfind_last_index (c : ascii) (s : string) :
  Str.rfind s c
  = match Facts.last_index c s with Some k => Z.of_nat k | None => (-1)%Z end.
Proof.
  unfold Str.rfind. rewrite rfind_from_last_index.
  by destruct (Facts.last_index c s).
Qed.

Lemma last_index_none (c : ascii) (s : string) :
  Facts.last_index c s = None → occurs c s = false.
Proof.
  induction s as [|a s IH]; [done |]. simpl.
  destruct (Facts.last_index c s); [done |].
  destruct (decide (a = c)); [done | auto].
Qed.

Lemma last_index_some (c : ascii) (s : string) (k : nat) :
  Facts.last_index c s = Some k → occurs c (Str.drop (S k) s) = false.
Proof.
  revert k. induction s as [|a s IH]; intros k; [done |]. simpl.
  destruct (Facts.last_index c s) as [j|] eqn:Hlast.
  - intros [= <-]. by apply IH.
  - destruct (decide (a = c)); [| done]. intros [= <-]. simpl.
    destruct s; [done |]. by apply last_index_none.
Qed.

Lemma last_index_occurs (c : ascii) (s : string) (k : nat) :
  Facts.last_index c s = Some k → occurs c s = true.
Proof.
  revert k. induction s as [|a s IH]; intros k; [done |]. simpl.
  destruct (decide (a = c)); [done |].
  destruct (Facts.last_index c s) as [j|]; [| done]. intros _. by apply (IH j).
Qed.

Lemma last_index_append (c : ascii) (s t : string) :
  occurs c t = false →
  Facts.last_index c (s +:+ String c t) = Some (String.length s).
Proof.
  intros Ht. induction s as [|a s IH].
  - simpl. destruct (Facts.last_index c t) as [k|] eqn:Hlast.
    + apply last_index_occurs in Hlast. congruence.
    + by destruct (decide (c = c)).
  - rewrite append_cons. simpl. by rewrite IH.
Qed.

Lemma drop_append (s t : string) : Str.drop (String.length s) (s +:+ t) = t.
Proof. induction s as [|a s IH]; [by destruct t | by rewrite append_cons]. Qed.

(** The base name of a path has no slash. *)
Lemma basename_no_slash (p : string) : occurs "/" (os_path.basename p) = false.
Proof.
  unfold os_path.basename, Str.slice_from, os_path.sep. rewrite rfind_last_index.
  destruct (Facts.last_index "/" p) as [k|] eqn:Hlast.
  - replace (Z.to_nat (Z.of_nat k + 1)) with (S k) by lia.
    by apply last_index_some.
  - simpl. by apply last_index_none.
Qed.

(** The base name of a name without a slash is the name. *)
Lemma basename_plain (name : string) :
  occurs "/" name = false → os_path.basename name = name.
Proof.
  intros Hname. unfold os_path.basename, Str.slice_from, os_path.sep.
  rewrite rfind_last_index.
  destruct (Facts.last_index "/" name) as [k|] eqn:Hlast; [| done].
  exfalso. clear -Hname Hlast. revert k Hlast.
  induction name as [|a s IH]; intros k Hk; [done |].
  simpl in Hname, Hk. destruct (decide (a = "/"%char)); [done |].
  destruct (Facts.last_index "/" s) as [j|]; [by apply (IH Hname j) | done].
Qed.

(** The base name of a directory, a slash and a name without a slash is the
    name. *)
Lemma basename_under (dir name : string) :
  occurs "/" name = false → os_path.basename (dir +:+ String "/" name) = name.
Proof.
  intros Hname. unfold os_path.basename, Str.slice_from, os_path.sep.
  rewrite rfind_last_index, last_index_append by done.
  replace (Z.to_nat (Z.of_nat (String.length dir) + 1)) with (S (String.length dir)) by lia.
  change (S (String.length dir)) with (String.length (String "/" dir)).
  clear Hname. induction dir as [|a s IH]; [by destruct name |].
  rewrite append_cons. simpl in IH |- *. exact IH.
Qed.

(** *** More on the predictor *)

Section PredictorMore.

Context (w : World) (self : AiDetection).

(** X1: whatever the predictor is called with, an exception that leaves it
    is neither a timeout nor a client error: the two [except] clauses turn
    every one of those into a server error with status 504 or 503. *)
Theorem X1_no_transport_error_escapes (image_path task_id : json) (e : exn)
    (tr tr' : list event) :
  _request_prediction w self image_path task_id tr = (Raise e, tr') →
  is_TimeoutError e = false ∧ is_ClientError e = false.
Proof.
  unfold _request_prediction, try_except, _request_prediction_except.
  match goal with |- context [match ?body tr with _ => _ end] =>
    destruct (body tr) as [[result|e0] tr0] end; [done |].
  destruct (is_TimeoutError e0) eqn:Htimeout.
  { py_step. by intros [= <- _]. }
  destruct (is_ClientError e0) eqn:Hclient.
  { py_step. by intros [= <- _]. }
  by intros [= <- _].
Qed.

(** X2: a call of the predictor makes at most one outbound POST, whose body
    is the prediction request built for the task id it was given, and it
    touches no file; with a configuration and a string path it makes exactly
    one, to [base_url + "/predict"] with the configured timeout. *)
Theorem X2_single_post_no_retry (image_path task_id : json) (tr : list event) :
  (∃ evs,
     (_request_prediction w self image_path task_id tr).2 = (tr ++ evs)%list ∧
     Spec.written evs = [] ∧
     (Spec.posted evs = [] ∨
      ∃ image_name, Spec.posted evs = [predict_data_of w image_name task_id])) ∧
  (∀ cfg p,
     ai_config self = Some cfg → image_path = JStr p →
     ∃ logs,
       (_request_prediction w self image_path task_id tr).2
       = (tr ++ Spec.predict_post w cfg p task_id :: logs)%list ∧
       Spec.posted logs = [] ∧ Spec.written logs = []).
Proof.
  assert (∀ cfg p,
     ai_config self = Some cfg →
     ∃ logs,
       (_request_prediction w self (JStr p) task_id tr).2
       = (tr ++ Spec.predict_post w cfg p task_id :: logs)%list ∧
       Spec.posted logs = [] ∧ Spec.written logs = []) as Hconfigured.
  { intros cfg p Hcfg. rewrite (_request_prediction_unfold w self cfg Hcfg).
    unfold _request_prediction_except. py_step.
    repeat (case_match; simplify_eq/=; py_step);
      (eexists; split_and!; [rewrite <- ?app_assoc; reflexivity | done | done]). }
  split.
  - destruct (ai_config self) as [cfg|] eqn:Hcfg.
    + destruct image_path as [| | | |p| |];
        try (unfold _request_prediction; py_step; simpl;
             exists []; by rewrite app_nil_r; auto).
      destruct (Hconfigured cfg p eq_refl) as (logs & Htrace & Hposted & Hwritten).
      exists (Spec.predict_post w cfg p task_id :: logs).
      split; [done |]. split; [done |]. right.
      exists (os_path.basename p). simpl. by rewrite Hposted.
    + exists []. rewrite app_nil_r. split; [| by auto].
      unfold _request_prediction. py_step. rewrite Hcfg.
      by destruct image_path.
  - intros cfg p Hcfg ->. by apply Hconfigured.
Qed.

(** X3: only the base name of the image path reaches the outbound request:
    two paths with the same base name lead to the same run of the predictor,
    and the image name put in the URL never contains a slash. *)
Theorem X3_only_the_base_name_counts (p1 p2 : string) (task_id : json) (tr : list event) :
  os_path.basename p1 = os_path.basename p2 →
  _request_prediction w self (JStr p1) task_id tr
  = _request_prediction w self (JStr p2) task_id tr ∧
  occurs "/" (os_path.basename p1) = false.
Proof.
  intros Hsame. split; [| apply basename_no_slash].
  unfold _request_prediction. py_step. py_step. by rewrite Hsame.
Qed.

(** X4: when the POST completes with status 200 but reading the JSON body
    fails, the failure is classified like a transport failure: a timeout
    gives status 504, a client error (such as a wrong content type) gives
    status 503 with the text of the error after "Failed to connect to AI
    service: ", and any other exception leaves the predictor unchanged. *)
Theorem X4_body_read_failures (cfg : AIConfig) (p : string) (task_id : json)
    (resp : response) (e : exn) (tr : list event) :
  ai_config self = Some cfg →
  Spec.exchange w cfg p task_id = Return resp →
  status resp = 200 →
  resp_json resp = Raise e →
  (_request_prediction w self (JStr p) task_id tr).1
  = if is_TimeoutError e then Raise (ServerError "AI service request timeout" 504)
    else if is_ClientError e then
      Raise (ServerError ("Failed to connect to AI service: " +:+ str e) 503)
    else Raise e.
Proof.
  intros Hcfg Hpost Hok Hjson.
  rewrite (_request_prediction_unfold w self cfg Hcfg).
  unfold _request_prediction_except. py_step. rewrite Hpost.
  destruct (decide (status resp ≠ 200)) as [Hne|_]; [done |].
  rewrite Hjson. destruct (is_TimeoutError e); [done |].
  by destruct (is_ClientError e).
Qed.

(** X5: a call that cannot build its request makes no POST and logs
    nothing: a path that is not a string raises the [TypeError] of
    [os.path.basename], and a string path on a component without
    configuration raises the [AttributeError] of [self.ai_config.base_url];
    both leave the predictor as they are. *)
Theorem X5_no_request_without_path_or_configuration (image_path task_id : json)
    (tr : list event) :
  (Facts.not_a_string image_path →
   _request_prediction w self image_path task_id tr
   = (Raise (Facts.not_a_path image_path), tr)) ∧
  (∀ p, image_path = JStr p → ai_config self = None →
   _request_prediction w self image_path task_id tr
   = (Raise (Facts.no_attribute "base_url"), tr)).
Proof.
  split.
  - intros Hpath. unfold _request_prediction. py_step.
    by destruct image_path.
  - intros p -> Hcfg. unfold _request_prediction. py_step. by rewrite Hcfg.
Qed.

End PredictorMore.

(** *** More on the predict handler *)

Section PredictHandlerMore.

Context (w : World) (self : AiDetection).

(** X6: when the three keys are bound, the image URL is a string and the
    remote service answers 200 with a JSON body, the predict handler makes
    the one POST, logs it, and returns {code: 200, message: "success", data:
    <that body>}. *)
Theorem X6_predict_passes_the_result_through (cfg : AIConfig) (req : WebRequest)
    (p : string) (task_id : json) (resp : response) (result : json) (tr : list event) :
  ai_config self = Some cfg →
  get_json req !! "image_url" = Some (JStr p) →
  get_json req !! "task_id" = Some task_id →
  is_Some (get_json req !! "callback_url") →
  Spec.exchange w cfg p task_id = Return resp →
  status resp = 200 →
  resp_json resp = Return result →
  _handle_predict w self req tr
  = (Return (success result),
     (tr ++ [Spec.predict_post w cfg p task_id;
             Facts.prediction_logged task_id result])%list) ∧
  success result !! "code" = Some (JInt 200) ∧
  success result !! "message" = Some (JStr "success") ∧
  success result !! "data" = Some result.
Proof.
  intros Hcfg Himage Htask Hcallback Hpost Hok Hjson. split.
  - unfold _handle_predict, bind at 1. rewrite check_required_passes.
    + py_step. rewrite Himage, Htask. py_step.
      rewrite (_request_prediction_unfold w self cfg Hcfg).
      py_step. rewrite Hpost.
      destruct (decide (status resp ≠ 200)) as [Hne|_]; [done |].
      rewrite Hjson. py_step. unfold Facts.prediction_logged.
      by rewrite <- app_assoc.
    + unfold required_fields. repeat apply Forall_cons_2; eauto.
  - unfold success. by simplify_map_eq.
Qed.

(** X7: an error the predict handler raises to its caller carries status 400
    or 500 and no other: the 503, 504 and remote statuses of the predictor
    never reach the caller; with status 400 the handler has done nothing. *)
Theorem X7_predict_errors_are_400_or_500 (req : WebRequest) (e : exn)
    (tr tr' : list event) :
  _handle_predict w self req tr = (Raise e, tr') →
  is_Exception e = true →
  ∃ message,
    (e = ServerError message 400 ∧ tr' = tr) ∨ e = ServerError message 500.
Proof.
  unfold _handle_predict, bind at 1.
  pose proof (check_required_quiet required_fields (get_json req) tr) as Hquiet.
  destruct (check_required required_fields (get_json req) tr) as [[[]|e0] tr0] eqn:Hcheck;
    simpl in Hquiet; subst tr0.
  - unfold try_except.
    match goal with |- context [match ?body tr with _ => _ end] =>
      destruct (body tr) as [[result|e1] tr1] end; [done |].
    destruct (is_Exception e1) eqn:He1.
    + py_step. intros [= <- _] _. eexists. by right.
    + intros [= <- _] He. congruence.
  - intros [= <- <-] _.
    assert (∃ message, e0 = ServerError message 400) as [message ->]; [| by eauto].
    clear -Hcheck. revert Hcheck. generalize required_fields.
    intros fields. induction fields as [|k ks IH]; simpl; [done |].
    destruct (get_json req !! k); [done |]. intros [= <-]. by eexists.
Qed.

(** X8: when the three keys are bound but the request cannot be built (the
    image URL is not a string, or the component has no configuration) the
    predict handler makes no POST and raises a 500 error whose message is the
    text of the underlying [TypeError] or [AttributeError]. *)
Theorem X8_predict_without_request (req : WebRequest) (image_url task_id : json)
    (tr : list event) :
  get_json req !! "image_url" = Some image_url →
  get_json req !! "task_id" = Some task_id →
  is_Some (get_json req !! "callback_url") →
  (Facts.not_a_string image_url →
   _handle_predict w self req tr
   = (Raise (ServerError (str (Facts.not_a_path image_url)) 500),
      (tr ++ [Facts.predict_failure_logged])%list)) ∧
  (∀ p, image_url = JStr p → ai_config self = None →
   _handle_predict w self req tr
   = (Raise (ServerError (str (Facts.no_attribute "base_url")) 500),
      (tr ++ [Facts.predict_failure_logged])%list)).
Proof.
  intros Himage Htask Hcallback.
  assert (check_required required_fields (get_json req) tr = (Return tt, tr)) as Hvalid.
  { apply check_required_passes. unfold required_fields.
    repeat apply Forall_cons_2; eauto. }
  split.
  - intros Hpath. unfold _handle_predict, bind at 1. rewrite Hvalid.
    py_step. rewrite Himage, Htask. py_step.
    unfold _request_prediction. py_step. by destruct image_url.
  - intros p -> Hcfg. unfold _handle_predict, bind at 1. rewrite Hvalid.
    py_step. rewrite Himage, Htask. py_step.
    unfold _request_prediction. py_step. by rewrite Hcfg.
Qed.

End PredictHandlerMore.

(** *** More on the upload handler *)

Section UploadHandlerMore.

Context (w : World) (self : AiDetection).

Local Arguments Str.endswith_any : simpl never.

(** What the handler does with an upload that passes the four checks,
    following the outcome of [open] and of [write]. *)
Lemma _handle_image_upload_validated (cfg : AIConfig) (req : WebRequest)
    (f : UploadedFile) (name task_id : string) (tr : list event) :
  ai_config self = Some cfg →
  Spec.first_failing req = None →
  files req !! "file" = Some (Some f) →
  filename f = Some name →
  args req !! "task_id" = Some task_id →
  _handle_image_upload w self req tr
  = let path := Spec.upload_path cfg task_id (unix_seconds w) name in
    match open_wb w path with
    | Some e =>
        if is_Exception e
        then (Raise (Facts.save_failure e), (tr ++ [Facts.save_failure_logged])%list)
        else (Raise e, tr)
    | None =>
        match file_write w path (body f) with
        | Some e =>
            if is_Exception e
            then (Raise (Facts.save_failure e),
                  (tr ++ [FileOpen path; Facts.save_failure_logged])%list)
            else (Raise e, (tr ++ [FileOpen path])%list)
        | None =>
            (Return (success JNull),
             (tr ++ [FileOpen path; FileWrite path (body f);
                     Facts.upload_saved_logged task_id path])%list)
        end
    end.
Proof.
  intros Hcfg Hchecks Hfile Hname Htask.
  destruct (first_failing_none req f name task_id Hchecks Hfile Hname Htask)
    as (Hnamed & Htruthy & Hallowed).
  unfold _handle_image_upload, named_file. rewrite Hfile, Hname, Hnamed.
  py_step. rewrite Htask. py_step.
  rewrite Htruthy, endswith_any_extension_allowed, Hallowed, Hcfg.
  py_step. cbn [negb]. cbv iota.
  fold (Spec.upload_name task_id (unix_seconds w) name).
  fold (Spec.upload_path cfg task_id (unix_seconds w) name).
  unfold _handle_image_upload_except.
  destruct (open_wb w _) as [e|].
  { py_step. by destruct (is_Exception e). }
  py_step. destruct (file_write w _ _) as [e|].
  { py_step. destruct (is_Exception e); [| done]. by rewrite <- app_assoc. }
  py_step. by rewrite <- !app_assoc.
Qed.

(** X9: whatever the request, the upload handler makes no outbound POST. *)
Theorem X9_upload_never_posts (req : WebRequest) (tr : list event) :
  ∃ evs,
    (_handle_image_upload w self req tr).2 = (tr ++ evs)%list ∧
    Spec.posted evs = [].
Proof.
  unfold _handle_image_upload, _handle_image_upload_except. py_step.
  repeat (case_match; simplify_eq/=; py_step);
    try (exists []; by rewrite app_nil_r);
    (eexists; split; [rewrite <- ?app_assoc; reflexivity | done]).
Qed.

(** X10: when an upload passes the four checks but saving it fails, the
    handler logs the failure and raises a 500 error whose message is "Failed
    to save image: " followed by the text of the failure.  If [open] failed
    no file was touched; if [write] failed the file has been opened (created
    or truncated) and is left so. *)
Theorem X10_upload_save_failures (cfg : AIConfig) (req : WebRequest)
    (f : UploadedFile) (name task_id : string) (e : exn) (tr : list event) :
  ai_config self = Some cfg →
  Spec.first_failing req = None →
  files req !! "file" = Some (Some f) →
  filename f = Some name →
  args req !! "task_id" = Some task_id →
  is_Exception e = true →
  (open_wb w (Spec.upload_path cfg task_id (unix_seconds w) name) = Some e →
   _handle_image_upload w self req tr
   = (Raise (ServerError ("Failed to save image: " +:+ str e) 500),
      (tr ++ [Facts.save_failure_logged])%list)) ∧
  (open_wb w (Spec.upload_path cfg task_id (unix_seconds w) name) = None →
   file_write w (Spec.upload_path cfg task_id (unix_seconds w) name) (body f) = Some e →
   _handle_image_upload w self req tr
   = (Raise (ServerError ("Failed to save image: " +:+ str e) 500),
      (tr ++ [FileOpen (Spec.upload_path cfg task_id (unix_seconds w) name);
              Facts.save_failure_logged])%list)).
Proof.
  intros Hcfg Hchecks Hfile Hname Htask Hexception.
  rewrite (_handle_image_upload_validated cfg req f name task_id tr
             Hcfg Hchecks Hfile Hname Htask). cbv zeta.
  split.
  - intros ->. by rewrite Hexception.
  - intros -> ->. by rewrite Hexception.
Qed.


(** X13: on a component without configuration, an upload that passes the
    four checks is not saved: the [AttributeError] of
    [self.ai_config.snapshot_path] leaves the handler as it is, outside the
    handler's own 400 and 500 errors, and no file is touched. *)
Theorem X13_upload_without_configuration (req : WebRequest) (f : UploadedFile)
    (name task_id : string) (tr : list event) :
  ai_config self = None →
  Spec.first_failing req = None →
  files req !! "file" = Some (Some f) →
  filename f = Some name →
  args req !! "task_id" = Some task_id →
  _handle_image_upload w self req tr
  = (Raise (Facts.no_attribute "snapshot_path"), tr).
Proof.
  intros Hcfg Hchecks Hfile Hname Htask.
  destruct (first_failing_none req f name task_id Hchecks Hfile Hname Htask)
    as (Hnamed & Htruthy & Hallowed).
  unfold _handle_image_upload, named_file. rewrite Hfile, Hname, Hnamed.
  py_step. rewrite Htask. py_step.
  by rewrite Htruthy, endswith_any_extension_allowed, Hallowed, Hcfg.
Qed.

End UploadHandlerMore.

(** *** The extension of a saved upload *)

Lemma last_dot_suffix_last_index (s : string) :
  Spec.last_dot_suffix s = (fun k => Str.drop k s) <$> Facts.last_index "." s.
Proof.
  induction s as [|c s IH]; [done |]. simpl. rewrite IH.
  destruct (Facts.last_index "." s) as [k|]; [done |]. simpl.
  by destruct (decide (c = "."%char)).
Qed.

(** A name with an allowed extension has, once lower-cased, that extension
    as the text from its last dot on. *)
Lemma extension_allowed_last_dot (name : string) :
  Spec.extension_allowed name = true →
  ∃ suffix,
    suffix ∈ allowed_suffixes ∧
    Spec.last_dot_suffix (Str.lower name) = Some suffix.
Proof.
  unfold Spec.extension_allowed, Spec.extension. rewrite bool_decide_eq_true.
  rewrite last_dot_suffix_lower.
  destruct (Spec.last_dot_suffix name) as [e|]; simpl.
  - intros Hin. by exists (Str.lower e).
  - unfold allowed_suffixes. rewrite !elem_of_cons, elem_of_nil.
    intros [H|[H|[H|[]]]]; discriminate.
Qed.

(** X12: the extension given to a saved upload is one of .jpg, .jpeg, .png
    in lower case, or none at all (a name made of dots before its last
    dot, such as ".jpg", passes the check and is saved without extension). *)
Theorem X12_saved_extension (name : string) :
  Spec.extension_allowed name = true →
  (os_path.splitext (Str.lower name)).2 ∈ Facts.saved_extensions.
Proof.
  intros Hallowed.
  destruct (extension_allowed_last_dot name Hallowed) as (suffix & Hin & Hlast).
  rewrite last_dot_suffix_last_index in Hlast.
  unfold os_path.splitext, os_path.extsep. rewrite (rfind_last_index "." _).
  destruct (Facts.last_index "." (Str.lower name)) as [k|]; [| done].
  injection Hlast as Hdrop. unfold Facts.saved_extensions.
  destruct (_ >? _)%Z; [| by left].
  destruct (os_path.splitext_scan _ _ _); [| by left].
  cbn [snd]. unfold Str.slice_from. rewrite Nat2Z.id, Hdrop.
  by right.
Qed.

(** *** More on the snapshot handler *)

Lemma append_assoc (s t u : string) : (s +:+ t) +:+ u = s +:+ t +:+ u.
Proof. induction s as [|a s IH]; [done |]. by rewrite !append_cons, IH. Qed.

Lemma append_length (s t : string) :
  String.length (s +:+ t) = (String.length s + String.length t)%nat.
Proof. induction s as [|a s IH]; [done |]. rewrite append_cons. simpl. by rewrite IH. Qed.

Lemma append_inj_r (s1 s2 t : string) : s1 +:+ t = s2 +:+ t → s1 = s2.
Proof.
  revert s2. induction s1 as [|a s1 IH]; intros [|b s2] Heq.
  - done.
  - apply (f_equal String.length) in Heq.
    rewrite !append_length in Heq. simpl in Heq. lia.
  - apply (f_equal String.length) in Heq.
    rewrite !append_length in Heq. simpl in Heq. lia.
  - rewrite !append_cons in Heq. injection Heq as -> Heq. f_equal. by apply IH.
Qed.

Lemma endswith_split (s suffix : string) :
  Str.endswith s suffix = true → ∃ pre, s = pre +:+ suffix.
Proof.
  induction s as [|a s IH]; simpl.
  - destruct (decide (EmptyString = suffix)) as [<-|]; [| done]. by exists EmptyString.
  - destruct (decide (String a s = suffix)) as [<-|]; [by exists EmptyString |].
    intros Hends. destruct (IH Hends) as [pre ->]. by exists (String a pre).
Qed.

(** Joining a directory and a plain name, then taking the base name, gives
    the name back. *)
Lemma basename_join (dir name : string) :
  occurs "/" name = false →
  os_path.basename (os_path.join dir name) = name.
Proof.
  intros Hname. unfold os_path.join, os_path.sep.
  destruct name as [|c t] eqn:Hc.
  - simpl. destruct (negb (Str.truthy dir) || Str.endswith dir "/") eqn:Hdir.
    + rewrite append_empty_r.
      apply orb_true_iff in Hdir as [Hempty|Hends].
      * by destruct dir.
      * destruct (endswith_split dir "/" Hends) as [pre ->].
        by apply basename_under.
    + rewrite append_empty_r. by apply basename_under.
  - simpl in Hname |- *. destruct (decide (c = "/"%char)) as [|Hne]; [done |].
    destruct (decide ("/"%char = c)) as [|_]; [congruence |].
    assert (occurs "/" (String c t) = false) as Hplain.
    { simpl. by destruct (decide (c = "/"%char)). }
    destruct (negb (Str.truthy dir) || Str.endswith dir "/") eqn:Hdir.
    + apply orb_true_iff in Hdir as [Hempty|Hends].
      * destruct dir; [| done]. by apply basename_plain.
      * destruct (endswith_split dir "/" Hends) as [pre ->].
        rewrite append_assoc. by apply basename_under.
    + by apply basename_under.
Qed.

(** The decimal text of an integer has no slash. *)
Lemma pretty_N_go_no_slash (x : N) (s : string) :
  occurs "/" s = false → occurs "/" (pretty_N_go x s) = false.
Proof.
  revert s. induction (N.lt_wf_0 x) as [x _ IH]; intros s Hs.
  assert (x = 0 ∨ 0 < x)%N as [->|Hpos] by lia.
  - by rewrite pretty_N_go_0.
  - rewrite pretty_N_go_step by done. apply IH.
    + by apply N.div_lt.
    + simpl. unfold pretty_N_char. by repeat case_match.
Qed.

Lemma pretty_Z_no_slash (z : Z) : occurs "/" (pretty z) = false.
Proof.
  assert (∀ x : positive, occurs "/" (pretty x) = false) as Hpos.
  { intros x. unfold pretty, pretty_positive, pretty, pretty_N.
    destruct (decide (N.pos x = 0%N)); [done |]. by apply pretty_N_go_no_slash. }
  destruct z as [|x|x]; unfold pretty, pretty_Z; [done | apply Hpos |].
  rewrite occurs_append, Hpos. reflexivity.
Qed.

(** The base name of the snapshot file is <taskId>.jpg. *)
Lemma snapshot_file_basename (w : World) (cfg : AIConfig) :
  os_path.basename (Spec.snapshot_file w cfg) = Spec.snapshot_task_id w +:+ ".jpg".
Proof.
  unfold Spec.snapshot_file. apply basename_join.
  unfold Spec.snapshot_task_id. by rewrite !occurs_append, pretty_Z_no_slash.
Qed.

Section SnapshotHandlerMore.

Context (w : World) (self : AiDetection).

(** The predictor touches no file. *)
Lemma _request_prediction_writes_nothing (image_path task_id : json) (tr : list event) :
  ∃ evs,
    (_request_prediction w self image_path task_id tr).2 = (tr ++ evs)%list ∧
    Spec.written evs = [].
Proof.
  destruct (ai_config self) as [cfg|] eqn:Hcfg.
  - destruct image_path as [| | | |p| |];
      try (unfold _request_prediction; py_step; simpl;
           exists []; by rewrite app_nil_r).
    rewrite (_request_prediction_unfold w self cfg Hcfg).
    unfold _request_prediction_except. py_step.
    repeat (case_match; simplify_eq/=; py_step);
      (eexists; split; [rewrite <- ?app_assoc; reflexivity | done]).
  - exists []. rewrite app_nil_r. split; [| done].
    unfold _request_prediction. py_step. rewrite Hcfg.
    by destruct image_path.
Qed.

(** The handler's [try] block once the snapshot is on disk. *)
Lemma _handle_snapshot_request_try_saved (cfg : AIConfig) (webcam : WebcamManager)
    (data : list byte) (tr : list event) :
  ai_config self = Some cfg →
  lookup_webcam w = Return webcam →
  take_snapshot webcam = Return (Some data) →
  open_wb w (Spec.snapshot_file w cfg) = None →
  file_write w (Spec.snapshot_file w cfg) data = None →
  _handle_snapshot_request_try w self tr
  = match _request_prediction w self (JStr (Spec.snapshot_file w cfg))
            (JStr (Spec.snapshot_task_id w)) (tr ++ Spec.snapshot_saved w cfg data)%list with
    | (Return _, tr') => (Return tt, tr')
    | (Raise e, tr') => (Raise e, tr')
    end.
Proof.
  intros Hcfg Hlookup Hsnapshot Hopen Hwrite.
  unfold _handle_snapshot_request_try. py_step.
  rewrite Hlookup, Hsnapshot, Hcfg. py_step.
  fold (Spec.snapshot_task_id w). fold (Spec.snapshot_file w cfg).
  rewrite Hopen. py_step. rewrite Hwrite. py_step.
  unfold Spec.snapshot_saved. rewrite <- !app_assoc. reflexivity.
Qed.

(** X14: when the webcam gives an image, the write succeeds and the remote
    service answers 200 with a JSON body, the snapshot handler writes the
    image to snapshot_<unixSeconds>.jpg, posts one prediction request whose
    image URL names that very file under the server's ai_snapshots route,
    logs the answer, drops it and returns no value. *)
Theorem X14_snapshot_is_saved_then_predicted (cfg : AIConfig) (webcam : WebcamManager)
    (data : list byte) (resp : response) (result : json) (tr : list event) :
  ai_config self = Some cfg →
  lookup_webcam w = Return webcam →
  take_snapshot webcam = Return (Some data) →
  open_wb w (Spec.snapshot_file w cfg) = None →
  file_write w (Spec.snapshot_file w cfg) data = None →
  Spec.exchange w cfg (Spec.snapshot_file w cfg) (JStr (Spec.snapshot_task_id w))
  = Return resp →
  status resp = 200 →
  resp_json resp = Return result →
  _handle_snapshot_request w self tr
  = (Return tt,
     (tr ++ Spec.snapshot_saved w cfg data ++
      [HttpPost (base_url cfg +:+ "/predict")
         (predict_data_of w (Spec.snapshot_task_id w +:+ ".jpg")
            (JStr (Spec.snapshot_task_id w)))
         (upload_timeout cfg);
       Facts.prediction_logged (JStr (Spec.snapshot_task_id w)) result])%list) ∧
  predict_data_of w (Spec.snapshot_task_id w +:+ ".jpg") (JStr (Spec.snapshot_task_id w))
    !! "image_url"
  = Some (JStr ("http://" +:+ host_address w +:+ "/server/files/ai_snapshots/"
                +:+ "snapshot_" +:+ pretty (unix_seconds w) +:+ ".jpg")).
Proof.
  intros Hcfg Hlookup Hsnapshot Hopen Hwrite Hpost Hok Hjson. split.
  - unfold _handle_snapshot_request, try_except.
    rewrite (_handle_snapshot_request_try_saved cfg webcam data tr) by done.
    rewrite (_request_prediction_unfold w self cfg Hcfg). py_step. rewrite Hpost.
    destruct (decide (status resp ≠ 200)) as [Hne|_]; [done |].
    rewrite Hjson. py_step.
    unfold Spec.predict_post, Facts.prediction_logged.
    rewrite snapshot_file_basename. by rewrite <- !app_assoc.
  - unfold predict_data_of, image_url_of, Spec.snapshot_task_id.
    rewrite lookup_insert_eq. by rewrite !append_assoc.
Qed.

(** X15: once the snapshot has been written it stays on disk whatever
    becomes of the prediction request: the handler, whether it returns or
    raises, has opened and written the snapshot file and no other. *)
Theorem X15_snapshot_stays_on_disk (cfg : AIConfig) (webcam : WebcamManager)
    (data : list byte) (tr : list event) :
  ai_config self = Some cfg →
  lookup_webcam w = Return webcam →
  take_snapshot webcam = Return (Some data) →
  open_wb w (Spec.snapshot_file w cfg) = None →
  file_write w (Spec.snapshot_file w cfg) data = None →
  Spec.written (_handle_snapshot_request w self tr).2
  = (Spec.written tr ++ [Spec.snapshot_file w cfg; Spec.snapshot_file w cfg])%list.
Proof.
  intros Hcfg Hlookup Hsnapshot Hopen Hwrite.
  unfold _handle_snapshot_request, try_except, _handle_snapshot_request_except.
  rewrite (_handle_snapshot_request_try_saved cfg webcam data tr) by done.
  destruct (_request_prediction_writes_nothing (JStr (Spec.snapshot_file w cfg))
              (JStr (Spec.snapshot_task_id w)) (tr ++ Spec.snapshot_saved w cfg data))
    as (evs & Htrace & Hnone).
  assert (Spec.written ((tr ++ Spec.snapshot_saved w cfg data) ++ evs)
          = (Spec.written tr ++ [Spec.snapshot_file w cfg; Spec.snapshot_file w cfg])%list)
    as Hsaved.
  { unfold Spec.written in *. rewrite !omap_app, Hnone. simpl. by rewrite app_nil_r. }
  destruct (_request_prediction w self _ _ _) as [[result|e] tr'];
    simpl in Htrace; subst tr'; [exact Hsaved |].
  destruct (is_Exception e); [| exact Hsaved].
  py_step. py_step. cbn [snd]. unfold Spec.written in *.
  rewrite omap_app, Hsaved. simpl. by rewrite app_nil_r.
Qed.

End SnapshotHandlerMore.

(** Joining one directory with two names that do not start with a slash
    gives different paths for different names. *)
Lemma join_inj (dir b1 b2 : string) :
  Str.startswith b1 "/" = false →
  Str.startswith b2 "/" = false →
  os_path.join dir b1 = os_path.join dir b2 → b1 = b2.
Proof.
  unfold os_path.join, os_path.sep. intros -> ->.
  destruct (_ || _); intros Heq.
  - by apply (inj (String.append dir)) in Heq.
  - apply (inj (String.append dir)) in Heq. by apply (inj (String.append "/")) in Heq.
Qed.

(** X16: two snapshots get the same task id, and hence the same file under
    one snapshot_path, exactly when they are taken within the same second. *)
Theorem X16_snapshots_collide_within_a_second (w1 w2 : World) (cfg : AIConfig) :
  (Spec.snapshot_task_id w1 = Spec.snapshot_task_id w2 ↔ unix_seconds w1 = unix_seconds w2) ∧
  (Spec.snapshot_file w1 cfg = Spec.snapshot_file w2 cfg ↔ unix_seconds w1 = unix_seconds w2).
Proof.
  assert (Spec.snapshot_task_id w1 = Spec.snapshot_task_id w2 →
          unix_seconds w1 = unix_seconds w2) as Hid.
  { unfold Spec.snapshot_task_id. intros Heq.
    apply (inj (String.append "snapshot_")) in Heq. by apply (inj pretty). }
  split; [split; [exact Hid | by unfold Spec.snapshot_task_id; intros ->] |].
  split; [| by unfold Spec.snapshot_file, Spec.snapshot_task_id; intros ->].
  unfold Spec.snapshot_file. intros Heq. apply Hid.
  apply (join_inj (snapshot_path cfg)) in Heq; [| reflexivity | reflexivity].
  by apply (append_inj_r _ _ ".jpg").
Qed.

(** *** The G-code response handler *)

Lemma startswith_append (prefix rest : string) :
  Str.startswith (prefix +:+ rest) prefix = true.
Proof.
  induction prefix as [|c prefix IH]; [by destruct rest |].
  rewrite append_cons. simpl. by destruct (decide (c = c)).
Qed.

Lemma startswith_split (s prefix : string) :
  Str.startswith s prefix = true → ∃ rest, s = prefix +:+ rest.
Proof.
  revert s. induction prefix as [|c prefix IH]; intros s; [by exists s |].
  destruct s as [|a s]; simpl; [done |].
  destruct (decide (c = a)) as [->|]; [| done].
  intros Hstarts. destruct (IH s Hstarts) as [rest ->]. by exists rest.
Qed.

(** X17: a G-code response triggers a snapshot exactly when it begins with
    "action:ai_snapshot", whatever follows that prefix: the handler then does
    what the snapshot handler does, failures included; for any other
    response it returns at once without any effect. *)
Theorem X17_gcode_response_dispatch (w : World) (self : AiDetection)
    (response : string) (tr : list event) :
  ((∃ rest, response = "action:ai_snapshot" +:+ rest) →
   _handle_gcode_response w self response tr = _handle_snapshot_request w self tr) ∧
  ((¬ ∃ rest, response = "action:ai_snapshot" +:+ rest) →
   _handle_gcode_response w self response tr = (Return tt, tr)).
Proof.
  unfold _handle_gcode_response. split.
  - intros [rest ->]. rewrite startswith_append. py_step.
    by destruct (_handle_snapshot_request w self tr) as [[[]|e] tr'].
  - intros Hother. destruct (Str.startswith response _) eqn:Hstarts; [| done].
    destruct Hother. by apply startswith_split.
Qed.

(** *** Loading the component and the Klippy events *)

Section LifecycleFacts.

Import Lifecycle.

Context (h : Host).

Ltac unfold_life :=
  unfold Lifecycle.try_except, Lifecycle.bind, Lifecycle.ret, Lifecycle.raise,
    Lifecycle.lift, do_register_endpoint, do_register_event_handler in *;
  cbv beta iota zeta.

(** X18: the handler of the "klippy ready" event never subscribes to the
    G-code output: it always raises and records no request to Klippy.  When
    the Klippy connection is found, what it raises is the [NameError] of
    [WebRequest], a name the module binds only under [TYPE_CHECKING]. *)
Theorem X18_klippy_ready_never_subscribes (tr : list lifecycle_event) :
  (∃ e, _handle_klippy_ready h tr = (Raise e, tr)) ∧
  (∀ klippy, lookup_klippy h = Return klippy →
   _handle_klippy_ready h tr = (Raise (NameError "WebRequest"), tr)).
Proof.
  unfold _handle_klippy_ready. unfold_life.
  destruct (lookup_klippy h) as [klippy|e].
  - split; [by eexists |]. intros ? [= <-]. reflexivity.
  - split; [by eexists | done].
Qed.

(** X19: whenever the component loads, its configuration is the one the
    application component already holds (the fallback to the [ai] section
    never supplies one), and it has registered, in this order, the two
    POST-only endpoints that require authentication and the handlers of the
    two Klippy events, and nothing else. *)
Theorem X19_loaded_component (self : AiDetection) (tr tr' : list lifecycle_event) :
  load_component h tr = (Return self, tr') →
  ∃ app,
    lookup_application h = Return app ∧
    ai_config self = app_ai_config app ∧
    tr' = (tr ++ registrations)%list.
Proof.
  unfold load_component, __init__, resolve_ai_config. unfold_life.
  destruct (lookup_application h) as [app|e]; [| done].
  intros Hrun. exists app. split; [done |].
  destruct (app_ai_config app) as [cfg|] eqn:Happ.
  - unfold_life. repeat (case_match; simplify_eq/=; unfold_life).
    split; [done |]. unfold registrations. by rewrite <- !app_assoc.
  - destruct (getsection h "ai") as [[section|]|e].
    + vm_compute in Hrun. discriminate.
    + unfold_life. repeat (case_match; simplify_eq/=; unfold_life).
      split; [done |]. unfold registrations. by rewrite <- !app_assoc.
    + destruct (is_config_error e); discriminate.
Qed.

(** X20: when the application component holds no configuration, a present
    [ai] section does not help: building the configuration raises the
    [NameError] of [AIConfig], which the [except config.error] clause lets
    through; a config error of [getsection] is raised again as the config
    error "[ai] section not found in configuration".  Either way nothing is
    registered. *)
Theorem X20_configuration_fallback_fails (app : Application) (tr : list lifecycle_event) :
  lookup_application h = Return app →
  app_ai_config app = None →
  (∀ section, getsection h "ai" = Return (Some section) →
   load_component h tr = (Raise (NameError "AIConfig"), tr)) ∧
  (∀ e, getsection h "ai" = Raise e → is_config_error e = true →
   load_component h tr
   = (Raise (config_error "[ai] section not found in configuration"), tr)).
Proof.
  intros Happ Hnone. unfold load_component, __init__, resolve_ai_config.
  unfold_life. rewrite Happ, Hnone. split.
  - intros section ->. reflexivity.
  - intros e -> ->. reflexivity.
Qed.

End LifecycleFacts.


(** ** The further properties at concrete inputs *)

Lemma X1_no_transport_error_escapes_witness :
  is_TimeoutError (ServerError "AI service request timeout" 504) = false ∧
  is_ClientError (ServerError "AI service request timeout" 504) = false.
Proof.
  apply (X1_no_transport_error_escapes Scenario.timeout_world Scenario.component
           (JStr "a.jpg") (JStr "t1") (ServerError "AI service request timeout" 504) []
           (_request_prediction Scenario.timeout_world Scenario.component
              (JStr "a.jpg") (JStr "t1") []).2).
  vm_compute. reflexivity.
Defined.

Lemma X3_only_the_base_name_counts_witness :
  _request_prediction Scenario.ok_world Scenario.component
    (JStr "/data/ai_snapshots/a.jpg") (JStr "t1") []
  = _request_prediction Scenario.ok_world Scenario.component
      (JStr "http://elsewhere/pictures/a.jpg") (JStr "t1") [] ∧
  occurs "/" (os_path.basename "/data/ai_snapshots/a.jpg") = false.
Proof.
  apply (X3_only_the_base_name_counts Scenario.ok_world Scenario.component
           "/data/ai_snapshots/a.jpg" "http://elsewhere/pictures/a.jpg" (JStr "t1") []).
  reflexivity.
Defined.

Lemma X4_body_read_failures_witness :
  (_request_prediction Cases.garbled_world Scenario.component
     (JStr "a.jpg") (JStr "t1") []).1
  = Raise (ServerError
             ("Failed to connect to AI service: "
              +:+ "Attempt to decode JSON with unexpected mimetype: text/html") 503).
Proof.
  apply (X4_body_read_failures Cases.garbled_world Scenario.component Scenario.cfg
           "a.jpg" (JStr "t1")
           {| status := 200;
              resp_text := Return "<html>";
              resp_json :=
                Raise (PyError ContentTypeError
                         "Attempt to decode JSON with unexpected mimetype: text/html") |}
           (PyError ContentTypeError
              "Attempt to decode JSON with unexpected mimetype: text/html") []).
  - reflexivity.
  - reflexivity.
  - reflexivity.
  - reflexivity.
Defined.

Lemma X6_predict_passes_the_result_through_witness :
  (_handle_predict Scenario.ok_world Scenario.component
     (Scenario.predict_request (Scenario.predict_body (JStr "http://caller/cb"))) []).1
  = Return (success Scenario.label_ok).
Proof.
  pose proof (X6_predict_passes_the_result_through Scenario.ok_world Scenario.component
                Scenario.cfg
                (Scenario.predict_request (Scenario.predict_body (JStr "http://caller/cb")))
                "http://printer/files/a.jpg" (JStr "t1")
                {| status := 200; resp_text := Return "{}";
                   resp_json := Return Scenario.label_ok |}
                Scenario.label_ok []) as Hrun.
  destruct Hrun as [Hrun _].
  - reflexivity.
  - vm_compute. reflexivity.
  - vm_compute. reflexivity.
  - vm_compute. eexists. reflexivity.
  - reflexivity.
  - reflexivity.
  - reflexivity.
  - by rewrite Hrun.
Defined.

Lemma X7_predict_errors_are_400_or_500_witness :
  ∃ message,
    (ServerError "AI service request timeout" 500 = ServerError message 400 ∧
     (_handle_predict Scenario.timeout_world Scenario.component
        (Scenario.predict_request (Scenario.predict_body (JStr "http://caller/cb"))) []).2
     = []) ∨
    ServerError "AI service request timeout" 500 = ServerError message 500.
Proof.
  apply (X7_predict_errors_are_400_or_500 Scenario.timeout_world Scenario.component
           (Scenario.predict_request (Scenario.predict_body (JStr "http://caller/cb")))
           (ServerError "AI service request timeout" 500) []).
  - vm_compute. reflexivity.
  - reflexivity.
Defined.

Lemma X8_predict_without_request_witness :
  _handle_predict Scenario.ok_world Scenario.component
    (Scenario.predict_request Cases.numeric_body) []
  = (Raise (ServerError "expected str, bytes or os.PathLike object, not int" 500),
     [Facts.predict_failure_logged]).
Proof.
  apply (proj1 (X8_predict_without_request Scenario.ok_world Scenario.component
                  (Scenario.predict_request Cases.numeric_body) (JInt 5) (JStr "t1") []
                  ltac:(vm_compute; reflexivity) ltac:(vm_compute; reflexivity)
                  ltac:(vm_compute; eexists; reflexivity))).
  exact I.
Defined.

Lemma X10_upload_save_failures_witness :
  _handle_image_upload Scenario.full_disk_world Scenario.component
    (Scenario.upload_request "a.jpg" "t1") []
  = (Raise (ServerError "Failed to save image: [Errno 28] No space left on device" 500),
     [Facts.save_failure_logged]) ∧
  _handle_image_upload Cases.bad_write_world Scenario.component
    (Scenario.upload_request "a.jpg" "t1") []
  = (Raise (ServerError "Failed to save image: [Errno 5] Input/output error" 500),
     [FileOpen "/data/ai_snapshots/t1_1700000000.jpg"; Facts.save_failure_logged]).
Proof.
  split.
  - apply (proj1 (X10_upload_save_failures Scenario.full_disk_world Scenario.component
                    Scenario.cfg (Scenario.upload_request "a.jpg" "t1")
                    {| filename := Some "a.jpg"; body := Scenario.jpeg |} "a.jpg" "t1"
                    (PyError OSError "[Errno 28] No space left on device") []
                    eq_refl ltac:(vm_compute; reflexivity) ltac:(vm_compute; reflexivity)
                    eq_refl ltac:(vm_compute; reflexivity) eq_refl)).
    reflexivity.
  - pose proof (proj2 (X10_upload_save_failures Cases.bad_write_world Scenario.component
                    Scenario.cfg (Scenario.upload_request "a.jpg" "t1")
                    {| filename := Some "a.jpg"; body := Scenario.jpeg |} "a.jpg" "t1"
                    (PyError OSError "[Errno 5] Input/output error") []
                    eq_refl ltac:(vm_compute; reflexivity) ltac:(vm_compute; reflexivity)
                    eq_refl ltac:(vm_compute; reflexivity) eq_refl)
                  eq_refl eq_refl) as Hrun.
    rewrite Hrun. vm_compute. reflexivity.
Defined.


Lemma X12_saved_extension_witness :
  (os_path.splitext (Str.lower "Photo.JPG")).2 ∈ Facts.saved_extensions ∧
  (os_path.splitext (Str.lower ".JPG")).2 ∈ Facts.saved_extensions.
Proof.
  split.
  - apply (X12_saved_extension "Photo.JPG"). vm_compute. reflexivity.
  - apply (X12_saved_extension ".JPG"). vm_compute. reflexivity.
Defined.

Lemma X13_upload_without_configuration_witness :
  _handle_image_upload Scenario.ok_world Cases.unconfigured
    (Scenario.upload_request "a.jpg" "t1") []
  = (Raise (Facts.no_attribute "snapshot_path"), []).
Proof.
  apply (X13_upload_without_configuration Scenario.ok_world Cases.unconfigured
           (Scenario.upload_request "a.jpg" "t1")
           {| filename := Some "a.jpg"; body := Scenario.jpeg |} "a.jpg" "t1" []).
  - reflexivity.
  - vm_compute. reflexivity.
  - vm_compute. reflexivity.
  - reflexivity.
  - vm_compute. reflexivity.
Defined.

Lemma X14_snapshot_is_saved_then_predicted_witness :
  (_handle_snapshot_request Scenario.ok_world Scenario.component []).1 = Return tt ∧
  Spec.posted (_handle_snapshot_request Scenario.ok_world Scenario.component []).2
  = [ {[ "image_url" :=
           JStr "http://192.168.1.10/server/files/ai_snapshots/snapshot_1700000000.jpg";
         "task_id" := JStr "snapshot_1700000000";
         "callback_url" := JStr "http://192.168.1.10/api/v1/ai/callback" ]} ].
Proof.
  pose proof (X14_snapshot_is_saved_then_predicted Scenario.ok_world Scenario.component
                Scenario.cfg {| take_snapshot := Return (Some Scenario.jpeg) |}
                Scenario.jpeg
                {| status := 200; resp_text := Return "{}";
                   resp_json := Return Scenario.label_ok |}
                Scenario.label_ok []
                eq_refl eq_refl eq_refl eq_refl eq_refl eq_refl eq_refl eq_refl) as [Hrun _].
  rewrite Hrun. split; [reflexivity |]. vm_compute. reflexivity.
Defined.

Lemma X15_snapshot_stays_on_disk_witness :
  (_handle_snapshot_request Scenario.timeout_world Scenario.component []).1
  = Raise (ServerError "Failed to process snapshot: AI service request timeout" 500) ∧
  Spec.written (_handle_snapshot_request Scenario.timeout_world Scenario.component []).2
  = ["/data/ai_snapshots/snapshot_1700000000.jpg";
     "/data/ai_snapshots/snapshot_1700000000.jpg"].
Proof.
  split; [vm_compute; reflexivity |].
  rewrite (X15_snapshot_stays_on_disk Scenario.timeout_world Scenario.component
             Scenario.cfg {| take_snapshot := Return (Some Scenario.jpeg) |}
             Scenario.jpeg [] eq_refl eq_refl eq_refl eq_refl eq_refl).
  vm_compute. reflexivity.
Defined.

Lemma X19_loaded_component_witness :
  ∃ app,
    Lifecycle.lookup_application (Cases.host (Some Scenario.cfg) (Return None)) = Return app ∧
    ai_config Scenario.component = Lifecycle.app_ai_config app ∧
    (Lifecycle.load_component (Cases.host (Some Scenario.cfg) (Return None)) []).2
    = ([] ++ Lifecycle.registrations)%list.
Proof.
  apply (X19_loaded_component (Cases.host (Some Scenario.cfg) (Return None))
           Scenario.component []
           (Lifecycle.load_component (Cases.host (Some Scenario.cfg) (Return None)) []).2).
  vm_compute. reflexivity.
Defined.

Lemma X20_configuration_fallback_fails_witness :
  Lifecycle.load_component (Cases.host None (Return (Some ∅))) []
  = (Raise (Lifecycle.NameError "AIConfig"), []) ∧
  Lifecycle.load_component
    (Cases.host None (Raise (Lifecycle.config_error "Section [ai] not found"))) []
  = (Raise (Lifecycle.config_error "[ai] section not found in configuration"), []).
Proof.
  split.
  - apply (proj1 (X20_configuration_fallback_fails (Cases.host None (Return (Some ∅)))
                    {| Lifecycle.app_ai_config := None |} [] eq_refl eq_refl) ∅).
    reflexivity.
  - apply (proj2 (X20_configuration_fallback_fails
                    (Cases.host None (Raise (Lifecycle.config_error "Section [ai] not found")))
                    {| Lifecycle.app_ai_config := None |} [] eq_refl eq_refl)
             (Lifecycle.config_error "Section [ai] not found")).
    + reflexivity.
    + reflexivity.
Defined.

Lemma X2_single_post_no_retry_witness :
  ∃ logs,
    (_request_prediction Scenario.rejected_world Scenario.component
       (JStr "a.jpg") (JStr "t1") []).2
    = ([] ++ Spec.predict_post Scenario.rejected_world Scenario.cfg "a.jpg" (JStr "t1")
          :: logs)%list ∧
    Spec.posted logs = [] ∧ Spec.written logs = [].
Proof.
  apply (proj2 (X2_single_post_no_retry Scenario.rejected_world Scenario.component
                  (JStr "a.jpg") (JStr "t1") []) Scenario.cfg "a.jpg").
  - reflexivity.
  - reflexivity.
Defined.

Lemma X5_no_request_without_path_or_configuration_witness :
  _request_prediction Scenario.ok_world Scenario.component (JInt 5) (JStr "t1") []
  = (Raise (Facts.not_a_path (JInt 5)), []) ∧
  _request_prediction Scenario.ok_world Cases.unconfigured (JStr "a.jpg") (JStr "t1") []
  = (Raise (Facts.no_attribute "base_url"), []).
Proof.
  split.
  - apply (proj1 (X5_no_request_without_path_or_configuration Scenario.ok_world
                    Scenario.component (JInt 5) (JStr "t1") [])).
    exact I.
  - apply (proj2 (X5_no_request_without_path_or_configuration Scenario.ok_world
                    Cases.unconfigured (JStr "a.jpg") (JStr "t1") []) "a.jpg").
    + reflexivity.
    + reflexivity.
Defined.

Lemma X17_gcode_response_dispatch_witness :
  _handle_gcode_response Scenario.blind_world Scenario.component
    ("action:ai_snapshot" +:+ " layer=12") []
  = _handle_snapshot_request Scenario.blind_world Scenario.component [] ∧
  _handle_gcode_response Scenario.ok_world Scenario.component "ok T:210.0" []
  = (Return tt, []).
Proof.
  split.
  - apply (proj1 (X17_gcode_response_dispatch Scenario.blind_world Scenario.component
                    ("action:ai_snapshot" +:+ " layer=12") [])).
    exists " layer=12". reflexivity.
  - apply (proj2 (X17_gcode_response_dispatch Scenario.ok_world Scenario.component
                    "ok T:210.0" [])).
    intros [rest Hrest]. vm_compute in Hrest. discriminate.
Defined.

Lemma X18_klippy_ready_never_subscribes_witness :
  Lifecycle._handle_klippy_ready (Cases.host (Some Scenario.cfg) (Return None)) []
  = (Raise (Lifecycle.NameError "WebRequest"), []).
Proof.
  apply (proj2 (X18_klippy_ready_never_subscribes
                  (Cases.host (Some Scenario.cfg) (Return None)) [])
           {| Lifecycle.request := fun _ _ => Return JNull |}).
  reflexivity.
Defined.

(** ** The upload handler's tests *)

Section UploadTests.

Context (w : World) (self : AiDetection).

Local Arguments Str.endswith_any : simpl never.

(** A request that fails a test is refused with the reason of the first
    test it fails, and nothing is added to the trace. *)
Lemma _handle_image_upload_refused_by_test (req : WebRequest)
    (t : Amended.upload_test) (tr : list event) :
  Amended.first_failing req = Some t →
  _handle_image_upload w self req tr
  = (Raise (ServerError (Amended.failure_message w req t) 400), tr).
Proof.
  unfold Amended.first_failing, Amended.upload_tests, _handle_image_upload. simpl.
  destruct (files req !! "file") as [file|] eqn:Hfile; simpl;
    [| intros [= <-]; reflexivity].
  rewrite (named_file_name req file Hfile).
  destruct (named_file file) as [[name data]|]; simpl;
    [| intros [= <-]; reflexivity].
  py_step. destruct (args req !! "task_id") as [task_id|] eqn:Htask; simpl;
    [| intros [= <-]; simpl; rewrite Htask; reflexivity].
  destruct (Str.truthy task_id); simpl;
    [| intros [= <-]; simpl; rewrite Htask; reflexivity].
  destruct (Str.endswith_any (Str.lower name) allowed_suffixes); simpl; [done |].
  intros [= <-]. reflexivity.
Qed.

(** C4 (amended): an upload that fails one of the handler's four tests (the
    file part is there; the file value is truthy and carries a filename that
    is not empty; task_id is there and not empty; the lower-cased filename
    ends with .jpg, .jpeg or .png) is refused with a 400 error, the one of
    the first test it fails in that order, and the handler touches no file:
    the trace is left as it was.  The size of the file's body is not part of
    any test. *)
Theorem C4_upload_refused_by_first_failing_test (req : WebRequest) (tr : list event) :
  (∃ t, t ∈ Amended.upload_tests ∧ Amended.passes req t = false) →
  ∃ t,
    Amended.first_failing req = Some t ∧
    _handle_image_upload w self req tr
    = (Raise (ServerError (Amended.failure_message w req t) 400), tr) ∧
    Spec.written (_handle_image_upload w self req tr).2 = Spec.written tr.
Proof.
  intros (t0 & Hin & Hfails).
  destruct (Amended.first_failing req) as [t|] eqn:Hfirst.
  - exists t. by rewrite (_handle_image_upload_refused_by_test req t tr Hfirst).
  - exfalso. unfold Amended.first_failing in Hfirst.
    apply list_elem_of_In in Hin.
    pose proof (find_none _ _ Hfirst t0 Hin) as Hpasses. simpl in Hpasses.
    by rewrite Hfails in Hpasses.
Qed.

(** A request that passes the handler's four tests passes the four checks
    read with the extension as the text from the last dot. *)
Lemma first_failing_none_tests (req : WebRequest) :
  Amended.first_failing req = None → Spec.first_failing req = None.
Proof.
  unfold Amended.first_failing, Amended.upload_tests, Spec.first_failing,
    Spec.upload_checks. simpl.
  destruct (Spec.file_name req) as [name|].
  - rewrite endswith_any_extension_allowed. by repeat case_match.
  - by repeat case_match.
Qed.

(** A character that does not occur in a string does not start it. *)
Lemma occurs_startswith (c : ascii) (s : string) :
  occurs c s = false → Str.startswith s (String c EmptyString) = false.
Proof.
  destruct s as [|a s]; [done |]. simpl.
  destruct (decide (a = c)) as [->|Hne]; [done |]. intros _.
  destruct (decide (c = a)); [congruence | done].
Qed.

(** The extension given to a saved upload has no slash. *)
Lemma saved_extension_no_slash (name : string) :
  Spec.extension_allowed name = true →
  occurs "/" (os_path.splitext (Str.lower name)).2 = false.
Proof.
  intros Hallowed.
  destruct (extension_allowed_last_dot name Hallowed) as (suffix & Hin & Hlast).
  rewrite last_dot_suffix_last_index in Hlast.
  unfold os_path.splitext, os_path.extsep. rewrite (rfind_last_index "." _).
  destruct (Facts.last_index "." (Str.lower name)) as [k|]; [| done].
  injection Hlast as Hdrop.
  destruct (_ >? _)%Z; [| done].
  destruct (os_path.splitext_scan _ _ _); [| done].
  cbn [snd]. unfold Str.slice_from. rewrite Nat2Z.id, Hdrop.
  unfold allowed_suffixes in Hin. rewrite !elem_of_cons, elem_of_nil in Hin.
  by destruct Hin as [->|[->|[->|[]]]].
Qed.

(** Joining a directory and a name without a slash gives a file directly in
    the directory. *)
Lemma join_directly_in (dir name : string) :
  occurs "/" name = false →
  Amended.directly_in dir name (os_path.join dir name).
Proof.
  intros Hname. split; [done |]. split; [by apply basename_join |].
  unfold os_path.join, os_path.sep. rewrite (occurs_startswith "/" name Hname).
  destruct (negb (Str.truthy dir) || Str.endswith dir "/") eqn:Hdir.
  - left. split; [| done]. apply orb_true_iff in Hdir as [Hempty|Hends].
    + left. by destruct dir.
    + by right.
  - right. split; [| done]. apply orb_false_iff in Hdir as [Htruthy Hends].
    split; [| done]. by destruct dir.
Qed.

(** C6 (amended): an upload that passes the handler's four tests, when the
    write succeeds, makes the handler persist exactly one file, at
    [os.path.join(snapshot_path, name)] where [name] is
    <taskId>_<unixSeconds><ext> and <ext> is the extension of the
    lower-cased filename, and return {code: 200, message: "success",
    data: null}; when the task id contains no slash, the name contains none
    either and the file lies in snapshot_path itself. *)
Theorem C6_valid_upload_persisted (cfg : AIConfig) (req : WebRequest)
    (f : UploadedFile) (name task_id : string) (tr : list event) :
  ai_config self = Some cfg →
  Amended.first_failing req = None →
  files req !! "file" = Some (Some f) →
  filename f = Some name →
  args req !! "task_id" = Some task_id →
  open_wb w (Spec.upload_path cfg task_id (unix_seconds w) name) = None →
  file_write w (Spec.upload_path cfg task_id (unix_seconds w) name) (body f) = None →
  _handle_image_upload w self req tr
  = (Return (success JNull),
     (tr ++ [FileOpen (Spec.upload_path cfg task_id (unix_seconds w) name);
             FileWrite (Spec.upload_path cfg task_id (unix_seconds w) name) (body f);
             Log INFO [Lit "AI Detection: Image saved for task "; Lit task_id;
                       Lit " at ";
                       Lit (Spec.upload_path cfg task_id (unix_seconds w) name)]])%list) ∧
  (occurs "/" task_id = false →
   Amended.directly_in (snapshot_path cfg)
     (Spec.upload_name task_id (unix_seconds w) name)
     (Spec.upload_path cfg task_id (unix_seconds w) name)).
Proof.
  intros Hcfg Htests Hfile Hname Htask Hopen Hwrite.
  pose proof (first_failing_none_tests req Htests) as Hchecks.
  split.
  - rewrite (_handle_image_upload_validated w self cfg req f name task_id tr
               Hcfg Hchecks Hfile Hname Htask). cbv zeta.
    by rewrite Hopen, Hwrite.
  - intros Hplain.
    destruct (first_failing_none req f name task_id Hchecks Hfile Hname Htask)
      as (_ & _ & Hallowed).
    unfold Spec.upload_path. apply join_directly_in.
    unfold Spec.upload_name.
    by rewrite !occurs_append, Hplain, pretty_Z_no_slash, saved_extension_no_slash.
Qed.

End UploadTests.

(** C4, as stated, fails twice.  An upload whose file has a name and a task
    id but no bytes is not refused as an empty file: it is saved and
    answered with code 200.  And an upload named ".jpg", a name to which
    [os.path.splitext] gives no extension, is not refused for its extension:
    it is saved, without extension. *)
Lemma C4_empty_file_and_bare_suffix_are_saved :
  (body <$> (files Amended.zero_byte_upload !! "file" ≫= id) = Some [] ∧
   _handle_image_upload Scenario.ok_world Scenario.component Amended.zero_byte_upload []
   = (Return (success JNull),
      [FileOpen "/data/ai_snapshots/t1_1700000000.jpg";
       FileWrite "/data/ai_snapshots/t1_1700000000.jpg" [];
       Log INFO [Lit "AI Detection: Image saved for task "; Lit "t1"; Lit " at ";
                 Lit "/data/ai_snapshots/t1_1700000000.jpg"]])) ∧
  ((os_path.splitext ".jpg").2 = EmptyString ∧
   (_handle_image_upload Scenario.ok_world Scenario.component
      (Scenario.upload_request ".jpg" "t1") []).1 = Return (success JNull) ∧
   Spec.written
     (_handle_image_upload Scenario.ok_world Scenario.component
        (Scenario.upload_request ".jpg" "t1") []).2
   = ["/data/ai_snapshots/t1_1700000000"; "/data/ai_snapshots/t1_1700000000"]).
Proof. vm_compute. repeat split; reflexivity. Qed.

Lemma C4_upload_refused_by_first_failing_test_witness :
  ∃ t,
    Amended.first_failing (Scenario.upload_request "notes.txt" "t1") = Some t ∧
    _handle_image_upload Scenario.ok_world Scenario.component
      (Scenario.upload_request "notes.txt" "t1") []
    = (Raise (ServerError
                (Amended.failure_message Scenario.ok_world
                   (Scenario.upload_request "notes.txt" "t1") t) 400), []) ∧
    Spec.written
      (_handle_image_upload Scenario.ok_world Scenario.component
         (Scenario.upload_request "notes.txt" "t1") []).2 = Spec.written [].
Proof.
  apply (C4_upload_refused_by_first_failing_test Scenario.ok_world Scenario.component
           (Scenario.upload_request "notes.txt" "t1") []).
  exists Amended.HasAllowedSuffix. split.
  - unfold Amended.upload_tests. repeat constructor.
  - vm_compute. reflexivity.
Defined.

Lemma C6_valid_upload_persisted_witness :
  _handle_image_upload Scenario.ok_world Scenario.component
    (Scenario.upload_request "Photo.JPG" "t1") []
  = (Return (success JNull),
     [FileOpen "/data/ai_snapshots/t1_1700000000.jpg";
      FileWrite "/data/ai_snapshots/t1_1700000000.jpg" Scenario.jpeg;
      Log INFO [Lit "AI Detection: Image saved for task "; Lit "t1"; Lit " at ";
                Lit "/data/ai_snapshots/t1_1700000000.jpg"]]) ∧
  Amended.directly_in "/data/ai_snapshots" "t1_1700000000.jpg"
    "/data/ai_snapshots/t1_1700000000.jpg".
Proof.
  pose proof (C6_valid_upload_persisted Scenario.ok_world Scenario.component
                Scenario.cfg (Scenario.upload_request "Photo.JPG" "t1")
                {| filename := Some "Photo.JPG"; body := Scenario.jpeg |}
                "Photo.JPG" "t1" []) as Hpersisted.
  destruct Hpersisted as [Hrun Hin].
  - reflexivity.
  - vm_compute. reflexivity.
  - vm_compute. reflexivity.
  - reflexivity.
  - vm_compute. reflexivity.
  - reflexivity.
  - reflexivity.
  - split.
    + rewrite Hrun. vm_compute. reflexivity.
    + specialize (Hin eq_refl).
      replace "t1_1700000000.jpg"
        with (Spec.upload_name "t1" (unix_seconds Scenario.ok_world) "Photo.JPG")
        by (vm_compute; reflexivity).
      replace "/data/ai_snapshots/t1_1700000000.jpg"
        with (Spec.upload_path Scenario.cfg "t1" (unix_seconds Scenario.ok_world)
                "Photo.JPG") by (vm_compute; reflexivity).
      exact Hin.
Defined.
